(** * ultimate_rprint: the formatter dispatch and its helpers

    A shallow embedding of [ultimate_rprint.py].  Every helper of that module
    builds one renderable (a markup string, a panel, a table) and hands it to
    [rich.print]; the embedding keeps the renderables that reach the console,
    in order, together with the lines still waiting on standard input, and
    threads that pair through the helpers.  Exceptions are explicit outcomes.

    Python [str] is embedded as [string]; one [ascii] stands for one
    character, so the texts are those of the code points below 256.  Python
    [int] is [Z].  A [dict] is the list of its items in insertion order, keys
    unique.  Python [float] is binary64, with its rounding written out.

    The embedding stops where the module calls the rendering library: a
    renderable is recorded as it is handed over, and [Returned] says that
    the helper's own code ran to its end.  How the library lays a renderable
    out or reads its markup, the [MarkupError] it raises on ill-formed markup
    included, is not described; neither is the memory a text needs. *)

From Stdlib Require Import ZArith List Bool Ascii String Lia.
From Stdlib Require Import Numbers.DecimalString.
Import ListNotations.

Local Open Scope list_scope.
Local Open Scope string_scope.
#[local] Set Warnings "-register-all".

(* ===================================================================== *)
(** ** Python strings *)
(* ===================================================================== *)

Module PyStr.

(** The double quote character (code 34). *)
Definition dquote : ascii := ascii_of_nat 34.

Definition str (c : ascii) : string := String c EmptyString.

(** [len(s)] *)
Definition len (s : string) : Z := Z.of_nat (String.length s).

Fixpoint take (n : nat) (s : string) : string :=
  match n, s with
  | O, _ => EmptyString
  | S _, EmptyString => EmptyString
  | S n', String c s' => String c (take n' s')
  end.

(** [s[:n]], for any integer [n]: a negative bound counts from the end. *)
Definition slice_to (n : Z) (s : string) : string :=
  if (0 <=? n)%Z then take (Z.to_nat n) s
  else take (Z.to_nat (len s + n)) s.

(** [sys.maxsize] on a 64-bit build: the largest index. *)
Definition maxsize : Z := 2 ^ 63 - 1.

(** Does [n] fit an index-sized integer? *)
Definition index_sized (n : Z) : bool := ((- maxsize - 1 <=? n) && (n <=? maxsize))%Z.

(** [s * n] for a count that fits an index: no copy at all when [n] is zero
    or negative. *)
Fixpoint repeat_nat (s : string) (n : nat) : string :=
  match n with
  | O => EmptyString
  | S n' => s ++ repeat_nat s n'
  end.

Definition repeat (s : string) (n : Z) : string := repeat_nat s (Z.to_nat n).

(** [sep.join(parts)] *)
Fixpoint join (sep : string) (parts : list string) : string :=
  match parts with
  | [] => EmptyString
  | [p] => p
  | p :: rest => p ++ sep ++ join sep rest
  end.

Fixpoint rev_onto (s acc : string) : string :=
  match s with
  | EmptyString => acc
  | String c s' => rev_onto s' (String c acc)
  end.

Definition rev (s : string) : string := rev_onto s EmptyString.

(** [c.isspace()], the characters [str.strip()] removes: tab, line feed,
    vertical tab, form feed, carriage return, the four separators 28..31,
    the space, the next-line control (133) and the no-break space (160). *)
Definition is_space (c : ascii) : bool :=
  let n := nat_of_ascii c in
  ((9 <=? n) && (n <=? 13) || (28 <=? n) && (n <=? 32) || (n =? 133) || (n =? 160))%nat.

Fixpoint lstrip (s : string) : string :=
  match s with
  | EmptyString => EmptyString
  | String c s' => if is_space c then lstrip s' else s
  end.

Definition rstrip (s : string) : string := rev (lstrip (rev s)).

Definition strip (s : string) : string := rstrip (lstrip s).

(** [s.startswith(p)] *)
Definition startswith (s p : string) : bool := String.prefix p s.

(** [s.replace('_', ' ')] *)
Fixpoint replace_underscore (s : string) : string :=
  match s with
  | EmptyString => EmptyString
  | String c s' =>
      String (if Ascii.eqb c "_"%char then " "%char else c) (replace_underscore s')
  end.

Definition is_lower (c : ascii) : bool :=
  let n := nat_of_ascii c in ((97 <=? n) && (n <=? 122))%nat.

Definition is_upper (c : ascii) : bool :=
  let n := nat_of_ascii c in ((65 <=? n) && (n <=? 90))%nat.

Definition to_upper (c : ascii) : ascii :=
  if is_lower c then ascii_of_nat (nat_of_ascii c - 32) else c.

Definition to_lower (c : ascii) : ascii :=
  if is_upper c then ascii_of_nat (nat_of_ascii c + 32) else c.

(** [s.isascii()] *)
Definition isascii (s : string) : bool :=
  forallb (fun c => (nat_of_ascii c <? 128)%nat) (list_ascii_of_string s).

(** [s.title()] on a text of ASCII characters: a cased character is
    upper-cased after an uncased one and lower-cased after a cased one.  A
    letter beyond ASCII is left as it stands and counts as uncased; there
    [str.title()] follows the Unicode case mappings, which leave the code
    points below 256 and may change the length of the text. *)
Fixpoint title_from (previous_is_cased : bool) (s : string) : string :=
  match s with
  | EmptyString => EmptyString
  | String c s' =>
      let cased := is_lower c || is_upper c in
      String (if cased then (if previous_is_cased then to_lower c else to_upper c) else c)
             (title_from cased s')
  end.

Definition title (s : string) : string := title_from false s.

(** [str(n)] for an integer. *)
Definition of_Z (n : Z) : string := NilZero.string_of_int (Z.to_int n).


(** [s.split()]: the maximal runs of characters that are not white space. *)
Fixpoint split_from (word : string) (s : string) : list string :=
  match s with
  | EmptyString => match word with EmptyString => [] | _ => [rev word] end
  | String c s' =>
      if is_space c
      then match word with
           | EmptyString => split_from EmptyString s'
           | _ => rev word :: split_from EmptyString s'
           end
      else split_from (String c word) s'
  end.

Definition split (s : string) : list string := split_from EmptyString s.

Definition hex_digit (n : nat) : ascii :=
  if (n <? 10)%nat then ascii_of_nat (48 + n) else ascii_of_nat (87 + n).

Definition contains_char (c : ascii) (s : string) : bool :=
  existsb (Ascii.eqb c) (list_ascii_of_string s).

(** One character of [repr(s)], [q] being the quote [repr] has chosen; a
    character that is not printable (the controls, the no-break space, the
    soft hyphen) is written as an escape. *)
Definition repr_char (q c : ascii) : string :=
  let n := nat_of_ascii c in
  if Ascii.eqb c q || Ascii.eqb c "\"%char then String "\"%char (str c)
  else if (n =? 9)%nat then "\t"
  else if (n =? 10)%nat then "\n"
  else if (n =? 13)%nat then "\r"
  else if ((n <? 32) || (n =? 127) || (128 <=? n) && (n <=? 160) || (n =? 173))%nat
       then "\x" ++ str (hex_digit (n / 16)) ++ str (hex_digit (n mod 16))
  else str c.

(** [repr(s)]: single quotes, unless the text has a single quote and no
    double quote. *)
Definition repr (s : string) : string :=
  let q := if contains_char "'"%char s && negb (contains_char dquote s)
           then dquote else "'"%char in
  str q ++ String.concat EmptyString (map (repr_char q) (list_ascii_of_string s)) ++ str q.

End PyStr.

(* ===================================================================== *)
(** ** Python values *)
(* ===================================================================== *)

(** The payloads the helpers inspect with [isinstance].  A float is carried
    by its [repr] text; [PObject] is an object of any other class, carried by
    its [str] and [repr] texts. *)
Inductive pyval : Type :=
| PNone
| PBool (b : bool)
| PInt (n : Z)
| PFloat (repr_text : string)
| PStr (s : string)
| PList (items : list pyval)
| PDict (entries : list (string * pyval))
| PObject (str_text repr_text : string).

(** A [dict] : its items, in insertion order. *)
Definition dict : Type := list (string * pyval).

Module PyData.

(** [d.keys()] *)
Definition keys (d : dict) : list string := map fst d.

(** [d.get(key, default)] *)
Fixpoint get (d : dict) (key : string) (default : pyval) : pyval :=
  match d with
  | [] => default
  | (k, v) :: rest => if String.eqb k key then v else get rest key default
  end.

(** [d[key] = value]: an existing key keeps its place. *)
Fixpoint set (d : dict) (key : string) (value : pyval) : dict :=
  match d with
  | [] => [(key, value)]
  | (k, v) :: rest =>
      if String.eqb k key then (k, value) :: rest else (k, v) :: set rest key value
  end.

(** [len(x)] for a list or a dict. *)
Definition len {A : Type} (l : list A) : Z := Z.of_nat (List.length l).

(** [l[:n]] for any integer [n]. *)
Definition slice_to {A : Type} (n : Z) (l : list A) : list A :=
  if (0 <=? n)%Z then firstn (Z.to_nat n) l
  else firstn (Z.to_nat (len l + n)) l.

Definition is_dict (v : pyval) : bool :=
  match v with PDict _ => true | _ => false end.

(** [repr(v)] *)
Fixpoint repr (v : pyval) : string :=
  match v with
  | PNone => "None"
  | PBool true => "True"
  | PBool false => "False"
  | PInt n => PyStr.of_Z n
  | PFloat r => r
  | PStr s => PyStr.repr s
  | PList items => "[" ++ PyStr.join ", " (map repr items) ++ "]"
  | PDict entries =>
      "{" ++ PyStr.join ", "
               (map (fun kv => PyStr.repr (fst kv) ++ ": " ++ repr (snd kv)) entries)
          ++ "}"
  | PObject _ r => r
  end.

(** [str(v)], which is also what an f-string field [{v}] inserts. *)
Definition to_str (v : pyval) : string :=
  match v with
  | PStr s => s
  | PObject s _ => s
  | _ => repr v
  end.

(** What [json.dumps] accepts: everything but foreign objects. *)
Fixpoint serializable (v : pyval) : bool :=
  match v with
  | PObject _ _ => false
  | PList items => forallb serializable items
  | PDict entries => forallb (fun kv => serializable (snd kv)) entries
  | _ => true
  end.

End PyData.

(* ===================================================================== *)
(** ** The console *)
(* ===================================================================== *)

Inductive exn : Type :=
| NameError (name : string)
| ZeroDivisionError
| OverflowError
| ValueError
| TypeError
| JSONDecodeError
| RecursionError
| NotImplementedError.

(** The body of a [Panel]: console markup, or [JSON.from_data(data)]. *)
Inductive panel_body : Type :=
| BodyMarkup (text : string)
| BodyJSON (data : pyval).

(** A [rich.table.Table] after its columns and rows have been added. *)
Record table : Type := mkTable {
  table_title : string;
  table_columns : list string;
  table_rows : list (list string);
  table_caption : option string
}.

(** What the helpers pass to [rich.print], and what a prompt shows. *)
Inductive renderable : Type :=
| Markup (text : string)
| RPanel (body : panel_body) (title : string) (border_style : string)
| RTable (t : table)
| RPrompt (text : string) (choices : list string).

(** The terminal: what has been written, and the lines the human will type. *)
Record world : Type := mkWorld {
  stdout : list renderable;
  stdin : list string
}.

(** How a call ends: it returns, it raises, or it is still waiting for the
    human at a prompt. *)
Inductive outcome (A : Type) : Type :=
| Returned (a : A) (w : world)
| Raised (e : exn) (w : world)
| Blocked (w : world).

Arguments Returned {A} a w.
Arguments Raised {A} e w.
Arguments Blocked {A} w.

Definition M (A : Type) : Type := world -> outcome A.

Definition ret {A : Type} (a : A) : M A := fun w => Returned a w.

Definition bind {A B : Type} (c : M A) (k : A -> M B) : M B :=
  fun w =>
    match c w with
    | Returned a w' => k a w'
    | Raised e w' => Raised e w'
    | Blocked w' => Blocked w'
    end.

Definition raise {A : Type} (e : exn) : M A := fun w => Raised e w.

Declare Scope console_scope.
Delimit Scope console_scope with console.
Notation "x <- c ;; k" := (bind c (fun x => k))
  (at level 61, c at next level, right associativity) : console_scope.
Notation "c ;; k" := (bind c (fun _ => k))
  (at level 61, right associativity) : console_scope.

Definition write (r : renderable) (w : world) : world :=
  mkWorld (stdout w ++ [r])%list (stdin w).

(** A fresh terminal: nothing written, nothing typed. *)
Definition fresh : world := mkWorld [] [].

(** [rich.print(r)]: the renderable is handed to the library; this is
    where the embedding stops. *)
Definition rprint (r : renderable) : M unit := fun w => Returned tt (write r w).

(** Lift a computation that either raises or yields a value. *)
Definition lift {A : Type} (r : exn + A) : M A :=
  match r with inl e => raise e | inr a => ret a end.

(** What a call, started on [w], has added to the console. *)
Definition final_world {A : Type} (o : outcome A) : world :=
  match o with Returned _ w | Raised _ w | Blocked w => w end.

Definition raises {A : Type} (o : outcome A) : bool :=
  match o with Raised _ _ => true | _ => false end.

Definition returns {A : Type} (o : outcome A) : bool :=
  match o with Returned _ _ => true | _ => false end.

(* ===================================================================== *)
(** ** Python floats *)
(* ===================================================================== *)

(** A Python [float] is an IEEE 754 binary64 number: a sign, a mantissa below
    [2^53] and an exponent between [-1074] and [971], or an infinity, or NaN.
    Every operation returns the exact result rounded to the nearest float,
    ties to the even mantissa. *)
Module PyFloat.

Local Open Scope Z_scope.

Inductive float : Type :=
| Finite (negative : bool) (m e : Z)
| Inf (negative : bool)
| NaN.

(** The integer nearest to [n / d], ties to even ([0 <= n], [0 < d]). *)
Definition round_half_even (n d : Z) : Z :=
  let q := n / d in
  match 2 * (n mod d) ?= d with
  | Lt => q
  | Gt => q + 1
  | Eq => if Z.even q then q else q + 1
  end.

(** [n / d * 2^s] as a fraction. *)
Definition scale (n d s : Z) : Z * Z :=
  if 0 <=? s then (n * 2 ^ s, d) else (n, d * 2 ^ (- s)).

(** The exponent of the last place of [n / d * 2^x] ([0 < n], [0 < d]):
    the one that leaves a quotient of 53 bits, and no less than [-1074]. *)
Definition last_place (n d x : Z) : Z :=
  let t := Z.log2 n - Z.log2 d + x - 53 in
  let '(n0, d0) := scale n d (x - t) in
  Z.max (if n0 / d0 <? 2 ^ 53 then t else t + 1) (-1074).

(** The float nearest to [n / d * 2^x] ([0 < n], [0 < d]). *)
Definition round_pos (negative : bool) (n d x : Z) : float :=
  let e := last_place n d x in
  let '(n1, d1) := scale n d (x - e) in
  let m := round_half_even n1 d1 in
  if m =? 0 then Finite negative 0 0
  else
    let '(m', e') := if m =? 2 ^ 53 then (2 ^ 52, e + 1) else (m, e) in
    if e' <=? 971 then Finite negative m' e' else Inf negative.

(** The float nearest to [n / d * 2^x], of the given sign ([0 <= n]). *)
Definition round (negative : bool) (n d x : Z) : float :=
  if n =? 0 then Finite negative 0 0 else round_pos negative n d x.

Definition of_Z (n : Z) : float := round (n <? 0) (Z.abs n) 1 0.

Definition zero : float := Finite false 0 0.
Definition one : float := of_Z 1.
Definition half : float := round false 1 2 0.

Definition neg (a : float) : float :=
  match a with
  | Finite s m e => Finite (negb s) m e
  | Inf s => Inf (negb s)
  | NaN => NaN
  end.

Definition signed (s : bool) (m : Z) : Z := if s then - m else m.

(** [a + b] *)
Definition add (a b : float) : float :=
  match a, b with
  | NaN, _ | _, NaN => NaN
  | Inf s, Inf s' => if Bool.eqb s s' then Inf s else NaN
  | Inf s, Finite _ _ _ | Finite _ _ _, Inf s => Inf s
  | Finite s m e, Finite s' m' e' =>
      let x := Z.min e e' in
      let total := signed s m * 2 ^ (e - x) + signed s' m' * 2 ^ (e' - x) in
      if total =? 0 then Finite (s && s') 0 0
      else round_pos (total <? 0) (Z.abs total) 1 x
  end.

(** [a - b] *)
Definition sub (a b : float) : float := add a (neg b).

(** [a * b] *)
Definition mul (a b : float) : float :=
  match a, b with
  | NaN, _ | _, NaN => NaN
  | Inf s, Inf s' => Inf (xorb s s')
  | Inf s, Finite s' m _ | Finite s' m _, Inf s =>
      if m =? 0 then NaN else Inf (xorb s s')
  | Finite s m e, Finite s' m' e' => round (xorb s s') (m * m') 1 (e + e')
  end.

(** [a / b] in C, where a zero divisor gives an infinity or NaN. *)
Definition div (a b : float) : float :=
  match a, b with
  | NaN, _ | _, NaN => NaN
  | Inf _, Inf _ => NaN
  | Inf s, Finite s' _ _ => Inf (xorb s s')
  | Finite s _ _, Inf s' => Finite (xorb s s') 0 0
  | Finite s m e, Finite s' m' e' =>
      if m' =? 0 then (if m =? 0 then NaN else Inf (xorb s s'))
      else round (xorb s s') m m' (e - e')
  end.

(** [a < b] *)
Definition ltb (a b : float) : bool :=
  match a, b with
  | NaN, _ | _, NaN => false
  | Inf s, Inf s' => s && negb s'
  | Inf s, Finite _ _ _ => s
  | Finite _ _ _, Inf s' => negb s'
  | Finite s m e, Finite s' m' e' =>
      let x := Z.min e e' in
      signed s m * 2 ^ (e - x) <? signed s' m' * 2 ^ (e' - x)
  end.

(** The truth value of a double in C: anything but a zero. *)
Definition is_nonzero (a : float) : bool :=
  match a with
  | Finite _ m _ => negb (m =? 0)
  | _ => true
  end.

Definition sign_bit (a : float) : bool :=
  match a with
  | Finite s _ _ | Inf s => s
  | NaN => false
  end.

(** [copysign(0.0, a)] *)
Definition copysign_zero (a : float) : float := Finite (sign_bit a) 0 0.

(** [fmod(a, b)]: the exact remainder, of the sign of [a]. *)
Definition fmod (a b : float) : float :=
  match a, b with
  | NaN, _ | _, NaN => NaN
  | Inf _, _ => NaN
  | Finite _ _ _, Inf _ => a
  | Finite s m e, Finite _ m' e' =>
      if m' =? 0 then NaN
      else
        let x := Z.min e e' in
        round s ((m * 2 ^ (e - x)) mod (m' * 2 ^ (e' - x))) 1 x
  end.

(** [floor(a)] *)
Definition floor (a : float) : float :=
  match a with
  | Finite s m e =>
      if 0 <=? e then a
      else
        let q := m / 2 ^ (- e) in
        let r := m mod 2 ^ (- e) in
        if s then round true (if r =? 0 then q else q + 1) 1 0
        else round false q 1 0
  | _ => a
  end.

(** The quotient of [_float_div_mod(vx, wx)], which [float.__floordiv__]
    returns when [wx] is not zero. *)
Definition div_mod_quotient (vx wx : float) : float :=
  let mod_ := fmod vx wx in
  let div0 := div (sub vx mod_) wx in
  let div1 :=
    if is_nonzero mod_ && negb (Bool.eqb (ltb wx zero) (ltb mod_ zero))
    then sub div0 one else div0 in
  if is_nonzero div1
  then
    let floordiv := floor div1 in
    if ltb half (sub div1 floordiv) then add floordiv one else floordiv
  else copysign_zero (div vx wx).

(** [int(a)] *)
Definition to_int (a : float) : exn + Z :=
  match a with
  | Finite s m e =>
      inr (signed s (if 0 <=? e then m * 2 ^ e else m / 2 ^ (- e)))
  | Inf _ => inl OverflowError
  | NaN => inl ValueError
  end.

(** [format(a, ".1f")] *)
Definition format_1f (a : float) : string :=
  match a with
  | Finite s m e =>
      let '(n, d) := scale (10 * m) 1 e in
      let tenths := round_half_even n d in
      ((if s then "-" else "") ++ PyStr.of_Z (tenths / 10) ++ "."
         ++ PyStr.of_Z (tenths mod 10))%string
  | Inf s => if s then "-inf"%string else "inf"%string
  | NaN => "nan"%string
  end.

(** [a / b] for two integers: the quotient correctly rounded. *)
Definition int_true_divide (a b : Z) : exn + float :=
  if b =? 0 then inl ZeroDivisionError
  else
    match round (xorb (a <? 0) (b <? 0)) (Z.abs a) (Z.abs b) 0 with
    | Inf _ => inl OverflowError
    | q => inr q
    end.

(** [a // b] for two floats. *)
Definition floor_divide (a b : float) : exn + float :=
  if is_nonzero b then inr (div_mod_quotient a b) else inl ZeroDivisionError.

End PyFloat.

(* ===================================================================== *)
(** ** The helpers of [ultimate_rprint.py] *)
(* ===================================================================== *)

Module Rprint.

Local Open Scope console_scope.

Definition newline : string := PyStr.str (ascii_of_nat 10).

(** *** Basic message types *)

Definition rprint_info (message : string) : M unit :=
  rprint (Markup ("[blue]ℹ " ++ message ++ "[/blue]")).

Definition rprint_success (message : string) : M unit :=
  rprint (Markup ("[green]✓ " ++ message ++ "[/green]")).

Definition rprint_warning (message : string) : M unit :=
  rprint (Markup ("[yellow]⚠ " ++ message ++ "[/yellow]")).

Definition rprint_error (message : string) : M unit :=
  rprint (Markup ("[red]✗ " ++ message ++ "[/red]")).

Definition rprint_debug (message : string) : M unit :=
  rprint (Markup ("[magenta][debug] " ++ message ++ "[/magenta]")).

Definition rprint_progress_msg (message : string) : M unit :=
  rprint (Markup ("[cyan]▶ " ++ message ++ "[/cyan]")).

(** *** Key-value panels and lists *)

Definition key_value_line (item : string * pyval) : string :=
  let key_formatted := PyStr.title (PyStr.replace_underscore (fst item)) in
  "[cyan]" ++ key_formatted ++ ":[/cyan] [white]" ++ PyData.to_str (snd item)
    ++ "[/white]" ++ newline.

Definition rprint_key_value (data : dict) (title : string) : M unit :=
  let content := fold_left (fun content item => content ++ key_value_line item) data "" in
  rprint (RPanel (BodyMarkup (PyStr.rstrip content))
                 ("[bold blue]" ++ title ++ "[/bold blue]") "blue").

Definition list_line (numbered : bool) (i : Z) (item : string) : string :=
  let prefix := if numbered then PyStr.of_Z i ++ ". " else "• " in
  "[cyan]" ++ prefix ++ "[/cyan][white]" ++ item ++ "[/white]" ++ newline.

(** The loop over [enumerate(items, i)]. *)
Fixpoint list_content (numbered : bool) (i : Z) (items : list string) (content : string)
  : string :=
  match items with
  | [] => content
  | item :: rest => list_content numbered (i + 1) rest (content ++ list_line numbered i item)
  end.

Definition rprint_list (items : list string) (title : string) (numbered : bool) : M unit :=
  let content := list_content numbered 1 items "" in
  rprint (RPanel (BodyMarkup (PyStr.rstrip content))
                 ("[bold blue]" ++ title ++ "[/bold blue]") "blue").

(** *** Tables *)

Definition column_header (key : string) : string :=
  PyStr.title (PyStr.replace_underscore key).

(** [[str(row.get(key, ""))[:50] for key in first_row.keys()]] *)
Definition row_values (first_row row : dict) : list string :=
  map (fun key => PyStr.slice_to 50 (PyData.to_str (PyData.get row key (PStr ""))))
      (PyData.keys first_row).

Definition rprint_table (data : list dict) (title : string) (max_rows : Z) : M unit :=
  match data with
  | [] => rprint_warning "No data for table"
  | first_row :: _ =>
      let columns := map column_header (PyData.keys first_row) in
      let rows := map (row_values first_row) (PyData.slice_to max_rows data) in
      let caption :=
        if (max_rows <? PyData.len data)%Z
        then Some ("Showing " ++ PyStr.of_Z max_rows ++ " of "
                     ++ PyStr.of_Z (PyData.len data) ++ " rows")
        else None in
      rprint (RTable (mkTable ("[bold blue]" ++ title ++ "[/bold blue]")
                              columns rows caption))
  end.

(** *** Text preview *)

Definition rprint_preview_text (text : string) (max_chars : Z) : M unit :=
  let preview :=
    if (max_chars <? PyStr.len text)%Z
    then PyStr.slice_to max_chars text ++ "..."
    else text in
  rprint (Markup ("[dim]" ++ preview ++ "[/dim]")).

(** *** Progress *)

(** [s * n] for a count computed at run time: [OverflowError] when the
    count does not fit an index-sized integer. *)
Definition str_mul (s : string) (n : Z) : exn + string :=
  if PyStr.index_sized n then inr (PyStr.repeat s n) else inl OverflowError.

Definition rprint_progress_bar (current total : Z) (description : string) : M unit :=
  quotient <- lift (PyFloat.int_true_divide current total) ;;
  let percentage := PyFloat.mul quotient (PyFloat.of_Z 100) in
  fifths <- lift (PyFloat.floor_divide percentage (PyFloat.of_Z 5)) ;;
  filled <- lift (PyFloat.to_int fifths) ;;
  blocks <- lift (str_mul "█" filled) ;;
  fifths' <- lift (PyFloat.floor_divide percentage (PyFloat.of_Z 5)) ;;
  filled' <- lift (PyFloat.to_int fifths') ;;
  shades <- lift (str_mul "░" (20 - filled')) ;;
  let bar := blocks ++ shades in
  rprint (Markup ("[cyan]" ++ description ++ ": [" ++ bar ++ "] "
                    ++ PyStr.of_Z current ++ "/" ++ PyStr.of_Z total
                    ++ " (" ++ PyFloat.format_1f percentage ++ "%)[/cyan]")).

(** *** User input *)

(** Modelled from the spec: [Prompt.ask(prompt, choices=choices)] belongs to
    the rendering library and is not part of the repository; the spec names
    it [promptChoice(question, choices)] and describes it as line-prompt
    collection with choice validation: it shows the prompt, blocks until the
    human supplies a line, returns a line that is one of [choices], and
    prompts again on any other line.  [lines] are the lines still to come
    and [shown] what the console holds. *)
Fixpoint Prompt_ask_loop (prompt : string) (choices : list string)
         (lines : list string) (shown : list renderable) : outcome string :=
  let shown' := (shown ++ [RPrompt prompt choices])%list in
  match lines with
  | [] => Blocked (mkWorld shown' [])
  | line :: rest =>
      if existsb (String.eqb line) choices
      then Returned line (mkWorld shown' rest)
      else Prompt_ask_loop prompt choices rest shown'
  end.

Definition Prompt_ask (prompt : string) (choices : list string) : M string :=
  fun w => Prompt_ask_loop prompt choices (stdin w) (stdout w).

Definition rprint_ask_choice (question : string) (choices : list string) : M string :=
  Prompt_ask ("[cyan]" ++ question ++ "[/cyan]") choices.

(** *** Universal logging *)

(** What a module-level name is bound to: one of the message helpers, or an
    object this development does not look into. *)
Inductive binding : Type :=
| Helper (f : string -> M unit)
| Opaque.

(** The global names of the module once it is loaded: its imports, the
    [console] object and its 75 functions.  No built-in is called [info]
    either. *)
Definition module_globals : list (string * binding) :=
  [ ("rprint", Opaque); ("Panel", Opaque); ("Progress", Opaque);
    ("SpinnerColumn", Opaque); ("TextColumn", Opaque); ("BarColumn", Opaque);
    ("TimeElapsedColumn", Opaque); ("Console", Opaque); ("Text", Opaque);
    ("Rule", Opaque); ("Tree", Opaque); ("Table", Opaque); ("Columns", Opaque);
    ("Align", Opaque); ("Syntax", Opaque); ("JSON", Opaque); ("Status", Opaque);
    ("Prompt", Opaque); ("Confirm", Opaque); ("Markdown", Opaque);
    ("ROUNDED", Opaque); ("DOUBLE", Opaque); ("MINIMAL", Opaque);
    ("time", Opaque); ("json", Opaque); ("contextlib", Opaque);
    ("Optional", Opaque); ("List", Opaque); ("Dict", Opaque); ("Any", Opaque);
    ("Union", Opaque); ("console", Opaque);
    ("rprint_json", Opaque); ("rprint_table", Opaque); ("rprint_tree", Opaque);
    ("rprint_code", Opaque); ("rprint_markdown", Opaque);
    ("rprint_progress_bar", Opaque); ("rprint_spinner", Opaque);
    ("rprint_countdown", Opaque); ("rprint_ask", Opaque);
    ("rprint_ask_yes_no", Opaque); ("rprint_ask_choice", Opaque);
    ("rprint_side_by_side", Opaque); ("rprint_multi_column", Opaque);
    ("rprint_diff", Opaque); ("rprint_key_value", Opaque); ("rprint_list", Opaque);
    ("rprint_info", Helper rprint_info); ("rprint_success", Helper rprint_success);
    ("rprint_warning", Helper rprint_warning); ("rprint_error", Helper rprint_error);
    ("rprint_debug", Helper rprint_debug);
    ("rprint_progress_msg", Helper rprint_progress_msg);
    ("rprint_operation_start", Opaque); ("rprint_operation_complete", Opaque);
    ("rprint_step_progress", Opaque); ("rprint_search_result", Opaque);
    ("rprint_connection_item", Opaque); ("rprint_decision_output", Opaque);
    ("rprint_status_update", Opaque); ("rprint_process_step", Opaque);
    ("rprint_section_panel", Opaque); ("rprint_status_panel", Opaque);
    ("rprint_completion_panel", Opaque); ("rprint_error_panel", Opaque);
    ("rprint_divider", Opaque); ("rprint_thin_divider", Opaque);
    ("rprint_execution_summary", Opaque); ("rprint_artifact_list", Opaque);
    ("rprint_loading", Opaque); ("rprint_pipeline_start", Opaque);
    ("rprint_pipeline_init", Opaque); ("rprint_search_term_extracted", Opaque);
    ("rprint_memory_search_start", Opaque); ("rprint_no_memories_found", Opaque);
    ("rprint_memory_connections_header", Opaque);
    ("rprint_research_complete", Opaque); ("rprint_generating_report", Opaque);
    ("rprint_api_error", Opaque); ("rprint_tracker_error", Opaque);
    ("rprint_fallback_notice", Opaque); ("rprint_pipeline_complete", Opaque);
    ("rprint_pipeline_failed", Opaque); ("rprint_memory_storage_prompt", Opaque);
    ("rprint_memory_stored", Opaque); ("rprint_memory_skipped", Opaque);
    ("rprint_test_start", Opaque); ("rprint_test_success", Opaque);
    ("rprint_test_failure", Opaque); ("rprint_separator", Opaque);
    ("rprint_header", Opaque); ("rprint_subheader", Opaque);
    ("rprint_welcome_banner", Opaque); ("rprint_completion_banner", Opaque);
    ("rprint_preview_text", Opaque); ("print_green", Opaque); ("print_red", Opaque);
    ("print_yellow", Opaque); ("print_blue", Opaque); ("print_cyan", Opaque);
    ("print_magenta", Opaque); ("print_dim", Opaque); ("print_bold", Opaque);
    ("rprint_log", Opaque); ("rprint_display_any", Opaque);
    ("rprint_replacement", Opaque) ].

Fixpoint lookup {A : Type} (table : list (string * A)) (key : string) : option A :=
  match table with
  | [] => None
  | (k, v) :: rest => if String.eqb k key then Some v else lookup rest key
  end.

(** Evaluating a global name: [NameError] when nothing is bound to it. *)
Definition load_global (name : string) : M binding :=
  match lookup module_globals name with
  | Some b => ret b
  | None => raise (NameError name)
  end.

(** [func(message)]; calling an object that is not a message helper is not
    described. *)
Definition call (func : binding) (message : string) : M unit :=
  match func with
  | Helper f => f message
  | Opaque => raise NotImplementedError
  end.

(** [table.get(key, default)] on a dictionary of bindings. *)
Definition get_binding (table : list (string * binding)) (key : string)
           (default : binding) : binding :=
  match lookup table key with Some b => b | None => default end.

Definition rprint_log (message : string) (level : string) : M unit :=
  f_info <- load_global "rprint_info" ;;
  f_success <- load_global "rprint_success" ;;
  f_warning <- load_global "rprint_warning" ;;
  f_error <- load_global "rprint_error" ;;
  f_debug <- load_global "rprint_debug" ;;
  f_progress <- load_global "rprint_progress_msg" ;;
  let level_map :=
    [ ("info", f_info); ("success", f_success); ("warning", f_warning);
      ("error", f_error); ("debug", f_debug); ("progress", f_progress) ] in
  default <- load_global "info" ;;
  let func := get_binding level_map level default in
  call func message.

(** *** JSON *)

(** [JSON.from_data(data)] serializes with [json.dumps], which raises
    [TypeError] on an object it cannot serialize. *)
Definition JSON_from_data (data : pyval) : M panel_body :=
  if PyData.serializable data then ret (BodyJSON data) else raise TypeError.

Definition json_panel (data : pyval) (title : string) : M unit :=
  body <- JSON_from_data data ;;
  rprint (RPanel body ("[bold cyan]" ++ title ++ "[/bold cyan]") "cyan").

Section Decoder.

(** [json.loads], the standard library's decoder: it yields the decoded
    value or raises.  The helpers are stated for any decoder. *)
Variable json_loads : string -> exn + pyval.

Definition rprint_json (data : pyval) (title : string) : M unit :=
  match data with
  | PStr s =>
      match json_loads s with
      | inr decoded => json_panel decoded title
      | inl JSONDecodeError => rprint (Markup "[red]Invalid JSON string[/red]")
      | inl e => raise e
      end
  | _ => json_panel data title
  end.

(** The rows of a list whose items have all passed [isinstance(item, dict)]. *)
Definition as_dicts (items : list pyval) : list dict :=
  flat_map (fun item => match item with PDict d => [d] | _ => [] end) items.

Definition rprint_display_any (data : pyval) (title : string) : M unit :=
  match data with
  | PDict d =>
      if (PyData.len d <? 10)%Z
      then rprint_key_value d title
      else rprint_json data title
  | PList items =>
      if forallb PyData.is_dict items
      then rprint_table (as_dicts items) title 10
      else rprint_list (map PyData.to_str items) title true
  | PStr s =>
      if PyStr.startswith (PyStr.strip s) "{"
      then rprint_json data title
      else rprint_info (title ++ ": " ++ PyData.to_str data)
  | _ => rprint_info (title ++ ": " ++ PyData.to_str data)
  end.

End Decoder.

End Rprint.

(* ===================================================================== *)
(** ** A JSON decoder for the examples *)
(* ===================================================================== *)

(** [json.loads] on the fragment of JSON without floats, without [\u]
    escapes and without the constants [NaN] and [Infinity]: white space,
    objects, arrays, strings, integers, [true], [false] and [null].  A text
    that leaves the fragment yields [NotImplementedError], which [json.loads]
    itself never raises: nothing is said about such a text.

    The decoder enters one nested call for every array or object it opens,
    and the interpreter raises [RecursionError] when its stack has no room
    for another: [room] is the number of nested calls still allowed.  The
    limit of the interpreter on the digits of an integer is not part of the
    decoder. *)
Module Json.

Definition is_ws (c : ascii) : bool :=
  let n := nat_of_ascii c in
  ((n =? 32) || (n =? 9) || (n =? 10) || (n =? 13))%nat.

Fixpoint skip_ws (s : list ascii) : list ascii :=
  match s with
  | c :: rest => if is_ws c then skip_ws rest else s
  | [] => []
  end.

Definition is_digit (c : ascii) : bool :=
  let n := nat_of_ascii c in ((48 <=? n) && (n <=? 57))%nat.

Definition digit_value (c : ascii) : Z := Z.of_nat (nat_of_ascii c - 48).

(** The character a two-character escape stands for. *)
Definition unescape (c : ascii) : option ascii :=
  let n := nat_of_ascii c in
  if (n =? 34)%nat then Some c
  else if (n =? 92)%nat then Some c
  else if (n =? 47)%nat then Some c
  else if Ascii.eqb c "b" then Some (ascii_of_nat 8)
  else if Ascii.eqb c "f" then Some (ascii_of_nat 12)
  else if Ascii.eqb c "n" then Some (ascii_of_nat 10)
  else if Ascii.eqb c "r" then Some (ascii_of_nat 13)
  else if Ascii.eqb c "t" then Some (ascii_of_nat 9)
  else None.

(** The text of a string, read from just after its opening quote. *)
Fixpoint scan_string (s : list ascii) (seen : list ascii)
  : exn + (string * list ascii) :=
  match s with
  | [] => inl JSONDecodeError
  | c :: rest =>
      if Ascii.eqb c PyStr.dquote
      then inr (string_of_list_ascii (List.rev seen), rest)
      else if Ascii.eqb c "\"
      then match rest with
           | [] => inl JSONDecodeError
           | e :: rest' =>
               match unescape e with
               | Some ch => scan_string rest' (ch :: seen)
               | None => if Ascii.eqb e "u" then inl NotImplementedError
                         else inl JSONDecodeError
               end
           end
      else if (nat_of_ascii c <? 32)%nat then inl JSONDecodeError
      else scan_string rest (c :: seen)
  end.

Fixpoint scan_digits (s : list ascii) (value : Z) : Z * list ascii :=
  match s with
  | c :: rest => if is_digit c then scan_digits rest (10 * value + digit_value c)
                 else (value, s)
  | [] => (value, [])
  end.

(** Does a fraction or an exponent follow the integer part? *)
Definition float_follows (s : list ascii) : bool :=
  match s with
  | c :: d :: rest =>
      if Ascii.eqb c "." then is_digit d
      else if Ascii.eqb c "e" || Ascii.eqb c "E"
      then is_digit d
           || ((Ascii.eqb d "+" || Ascii.eqb d "-")
               && match rest with x :: _ => is_digit x | [] => false end)
      else false
  | _ => false
  end.

(** A zero, or a digit run that does not start with zero; an integer
    unless a fraction or an exponent follows. *)
Definition scan_natural (s : list ascii) : exn + (Z * list ascii) :=
  match s with
  | c :: rest =>
      if negb (is_digit c) then inl JSONDecodeError
      else
        let '(n, rest') := if Ascii.eqb c "0" then (0%Z, rest)
                           else scan_digits s 0 in
        if float_follows rest' then inl NotImplementedError else inr (n, rest')
  | [] => inl JSONDecodeError
  end.

Definition expect (word : string) (s : list ascii) : option (list ascii) :=
  let w := list_ascii_of_string word in
  if list_eq_dec ascii_dec (firstn (List.length w) s) w
  then Some (skipn (List.length w) s) else None.

Definition constant (word : string) (v : pyval) (s : list ascii)
  : exn + (pyval * list ascii) :=
  match expect word s with
  | Some rest => inr (v, rest)
  | None => inl JSONDecodeError
  end.

Definition unsupported_constant (word : string) (s : list ascii)
  : exn + (pyval * list ascii) :=
  match expect word s with
  | Some _ => inl NotImplementedError
  | None => inl JSONDecodeError
  end.

Fixpoint value (fuel room : nat) (s : list ascii) : exn + (pyval * list ascii) :=
  match fuel with
  | O => inl RecursionError
  | S fuel' =>
      match s with
      | [] => inl JSONDecodeError
      | c :: rest =>
          if Ascii.eqb c PyStr.dquote
          then match scan_string rest [] with
               | inr (text, rest') => inr (PStr text, rest')
               | inl e => inl e
               end
          else if Ascii.eqb c "{"
          then match room with
               | O => inl RecursionError
               | S room' =>
                   match skip_ws rest with
                   | d :: rest' =>
                       if Ascii.eqb d "}" then inr (PDict [], rest')
                       else if Ascii.eqb d PyStr.dquote then members fuel' room' rest' []
                       else inl JSONDecodeError
                   | [] => inl JSONDecodeError
                   end
               end
          else if Ascii.eqb c "["
          then match room with
               | O => inl RecursionError
               | S room' =>
                   match skip_ws rest with
                   | d :: rest' =>
                       if Ascii.eqb d "]" then inr (PList [], rest')
                       else elements fuel' room' (d :: rest') []
                   | [] => inl JSONDecodeError
                   end
               end
          else if Ascii.eqb c "n" then constant "null" PNone s
          else if Ascii.eqb c "t" then constant "true" (PBool true) s
          else if Ascii.eqb c "f" then constant "false" (PBool false) s
          else if Ascii.eqb c "N" then unsupported_constant "NaN" s
          else if Ascii.eqb c "I" then unsupported_constant "Infinity" s
          else if Ascii.eqb c "-"
          then match scan_natural rest with
               | inr (n, rest') => inr (PInt (- n), rest')
               | inl JSONDecodeError => unsupported_constant "-Infinity" s
               | inl e => inl e
               end
          else match scan_natural s with
               | inr (n, rest') => inr (PInt n, rest')
               | inl e => inl e
               end
      end
  end

(** The items of an array, read from the first character of an item. *)
with elements (fuel room : nat) (s : list ascii) (seen : list pyval)
  : exn + (pyval * list ascii) :=
  match fuel with
  | O => inl RecursionError
  | S fuel' =>
      match value fuel' room s with
      | inl e => inl e
      | inr (v, rest) =>
          match skip_ws rest with
          | d :: rest' =>
              if Ascii.eqb d "]" then inr (PList (List.rev (v :: seen)), rest')
              else if Ascii.eqb d "," then elements fuel' room (skip_ws rest') (v :: seen)
              else inl JSONDecodeError
          | [] => inl JSONDecodeError
          end
      end
  end

(** The members of an object, read from just after the opening quote of a
    key; [seen] is the dictionary built so far. *)
with members (fuel room : nat) (s : list ascii) (seen : dict)
  : exn + (pyval * list ascii) :=
  match fuel with
  | O => inl RecursionError
  | S fuel' =>
      match scan_string s [] with
      | inl e => inl e
      | inr (key, rest) =>
          match skip_ws rest with
          | colon :: rest1 =>
              if negb (Ascii.eqb colon ":") then inl JSONDecodeError
              else
                match value fuel' room (skip_ws rest1) with
                | inl e => inl e
                | inr (v, rest2) =>
                    let seen' := PyData.set seen key v in
                    match skip_ws rest2 with
                    | d :: rest3 =>
                        if Ascii.eqb d "}" then inr (PDict seen', rest3)
                        else if Ascii.eqb d ","
                        then match skip_ws rest3 with
                             | q :: rest4 =>
                                 if Ascii.eqb q PyStr.dquote
                                 then members fuel' room rest4 seen'
                                 else inl JSONDecodeError
                             | [] => inl JSONDecodeError
                             end
                        else inl JSONDecodeError
                    | [] => inl JSONDecodeError
                    end
                end
          | [] => inl JSONDecodeError
          end
      end
  end.

(** [json.loads(s)] with room for [room] nested calls: one value, white
    space around it, nothing after it. *)
Definition loads_within (room : nat) (s : string) : exn + pyval :=
  let chars := list_ascii_of_string s in
  match value (2 * List.length chars + 2) room (skip_ws chars) with
  | inl e => inl e
  | inr (v, rest) =>
      match skip_ws rest with
      | [] => inr v
      | _ :: _ => inl JSONDecodeError
      end
  end.

(** [json.loads(s)] with room for any nesting: a text opens no more arrays
    and objects than it has characters. *)
Definition loads (s : string) : exn + pyval := loads_within (String.length s) s.

(** [sys.getrecursionlimit()] as the interpreter starts: the room there is
    when nothing else is on the stack. *)
Definition recursion_limit : nat := 1000.

End Json.

(* ===================================================================== *)
(** ** Status lines *)
(* ===================================================================== *)

Module Status.

Local Open Scope console_scope.

Definition rprint_thin_divider : M unit :=
  rprint (Markup ("[dim]" ++ PyStr.repeat "-" 60 ++ "[/dim]")).

Definition artifact_line (item : string * string) : string :=
  "  [cyan]• " ++ PyStr.title (PyStr.replace_underscore (fst item)) ++ ":[/cyan] "
    ++ snd item.

(** The loop over [artifacts.items()]. *)
Fixpoint artifact_lines (artifacts : list (string * string)) : M unit :=
  match artifacts with
  | [] => ret tt
  | item :: rest => rprint (Markup (artifact_line item)) ;; artifact_lines rest
  end.

Definition rprint_artifact_list (artifacts : list (string * string)) : M unit :=
  rprint (Markup (Rprint.newline ++ "[bold yellow]Generated Artifacts ("
                    ++ PyStr.of_Z (PyData.len artifacts)
                    ++ " files):[/bold yellow]")) ;;
  rprint_thin_divider ;;
  artifact_lines artifacts.

Definition status_colors : list (string * string) :=
  [ ("processing", "yellow"); ("complete", "green"); ("failed", "red");
    ("skipped", "dim"); ("warning", "yellow") ].

Definition rprint_process_step (step_name status : string) : M unit :=
  let color :=
    match Rprint.lookup status_colors status with
    | Some c => c
    | None => "blue"
    end in
  rprint (Markup ("[" ++ color ++ "]" ++ step_name ++ "[/" ++ color ++ "]")).

End Status.

(* ===================================================================== *)
(** ** Trees and columns *)
(* ===================================================================== *)

(** The helpers that hand a tree or a row of panels to [rich.print].  They
    have a console of their own kind of renderable. *)
Module Layout.

Inductive error : Type :=
| IndexError
| ZeroDivision.

Inductive widget : Type :=
| Tree (label : string) (branches : list (string * list string))
| Columns (panels : list renderable) (equal : bool).

Definition W (A : Type) : Type := list widget -> (error + A) * list widget.

Definition wret {A : Type} (a : A) : W A := fun shown => (inr a, shown).

Definition wraise {A : Type} (e : error) : W A := fun shown => (inl e, shown).

Definition wbind {A B : Type} (c : W A) (k : A -> W B) : W B :=
  fun shown =>
    match c shown with
    | (inr a, shown') => k a shown'
    | (inl e, shown') => (inl e, shown')
    end.

(** [rich.print(w)] *)
Definition wprint (w : widget) : W unit := fun shown => (inr tt, (shown ++ [w])%list).

(** [l * n] for a list *)
Fixpoint list_repeat {A : Type} (l : list A) (n : nat) : list A :=
  match n with
  | O => []
  | S n' => (l ++ list_repeat l n')%list
  end.

(** [l[i]] for an index that is not negative *)
Definition index {A : Type} (l : list A) (i : nat) : W A :=
  match nth_error l i with
  | Some a => wret a
  | None => wraise IndexError
  end.

(** *** Trees *)




(** *** Columns *)

Definition rprint_side_by_side (left_content right_content left_title right_title : string)
  : W unit :=
  let left_panel :=
    RPanel (BodyMarkup left_content) ("[bold blue]" ++ left_title ++ "[/bold blue]") "blue" in
  let right_panel :=
    RPanel (BodyMarkup right_content) ("[bold green]" ++ right_title ++ "[/bold green]")
           "green" in
  wprint (Columns [left_panel; right_panel] true).

Definition rprint_diff (old new : string) : W unit :=
  rprint_side_by_side old new "Before" "After".

(** [l] unless [not l]: [None] and the empty list give way to the default. *)
Definition or_default {A : Type} (l : option (list A)) (default : list A) : list A :=
  match l with
  | Some (a :: rest) => a :: rest
  | _ => default
  end.

(** The loop over [enumerate(contents)], from index [i] on. *)
Fixpoint column_panels (i : nat) (contents titles colors : list string)
         (panels : list renderable) : W (list renderable) :=
  match contents with
  | [] => wret panels
  | content :: rest =>
      wbind (if (List.length colors =? 0)%nat then wraise ZeroDivision
             else index colors (i mod List.length colors))
            (fun color =>
      wbind (index titles i)
            (fun title =>
      column_panels (S i) rest titles colors
        (panels ++ [RPanel (BodyMarkup content)
                           ("[bold " ++ color ++ "]" ++ title ++ "[/bold " ++ color ++ "]")
                           color])%list))
  end.

Definition rprint_multi_column (contents : list string)
           (titles colors : option (list string)) : W unit :=
  let titles' :=
    or_default titles
      (map (fun i => "Column " ++ PyStr.of_Z (Z.of_nat i + 1))
           (seq 0 (List.length contents))) in
  let colors' :=
    or_default colors
      (list_repeat ["blue"; "green"; "yellow"; "cyan"; "magenta"]
                   (List.length contents / 5 + 1)) in
  wbind (column_panels 0 contents titles' colors' [])
        (fun panels => wprint (Columns panels true)).

End Layout.

(** ** The countdown

    [rprint_countdown] prints with [end="\r"] and sleeps between the prints,
    so what it does is a sequence of prints, each with its end text, and of
    sleeps. *)

Module Timer.







End Timer.

(* ===================================================================== *)
(** ** Vocabulary of the statements *)
(* ===================================================================== *)


Module FloatBound.

Import PyFloat.
Local Open Scope Z_scope.

(** A finite float below [2^k]: its mantissa has at most 53 bits and its
    exponent is at most [k - 53]. *)
Definition below (k : Z) (a : float) : Prop :=
  match a with
  | Finite _ m e => 0 <= m < 2 ^ 53 /\ e + 53 <= k
  | _ => False
  end.

(** The floats [5.0] and [100.0]. *)
Definition five : float := Finite false (5 * 2 ^ 50) (-50).
Definition hundred : float := Finite false (100 * 2 ^ 46) (-46).

End FloatBound.

(** One line of a key/value panel, without its line feed. *)
Definition key_value_text (item : string * pyval) : string :=
  "[cyan]" ++ PyStr.title (PyStr.replace_underscore (fst item)) ++ ":[/cyan] [white]"
    ++ PyData.to_str (snd item) ++ "[/white]".

(** One line of a list panel, without its line feed. *)
Definition list_text (numbered : bool) (i : Z) (item : string) : string :=
  "[cyan]" ++ (if numbered then PyStr.of_Z i ++ ". " else "• ") ++ "[/cyan][white]"
    ++ item ++ "[/white]".

(** The lines of a list panel whose first item has the number [i]. *)
Fixpoint list_texts (numbered : bool) (i : Z) (items : list string) : list string :=
  match items with
  | [] => []
  | item :: rest => list_text numbered i item :: list_texts numbered (i + 1) rest
  end.

(** The lines of a panel body as the helpers build it: each with its line
    feed, one after the other. *)
Definition with_feeds (texts : list string) : string :=
  fold_right (fun text rest => (text ++ Rprint.newline) ++ rest) "" texts.

(** A text that ends with a closing bracket. *)
Definition closes (text : string) : Prop := exists s, text = s ++ "]".


Module FloatValue.

Import PyFloat.
Local Open Scope Z_scope.



End FloatValue.


Module Samples.

Definition quoted (s : string) : string :=
  PyStr.str PyStr.dquote ++ s ++ PyStr.str PyStr.dquote.

(** The JSON text of a mapping with the one key [a]. *)
Definition json_a1 : string := "{" ++ quoted "a" ++ ": 1}".

Definition numbered_row (i : nat) : dict :=
  [("id", PInt (Z.of_nat i)); ("name", PStr ("row " ++ PyStr.of_Z (Z.of_nat i)))].



(** A text of 200 characters. *)
Definition long_text : string := PyStr.repeat "0123456789" 20.

(** A hundred thousand opening brackets: the start of arrays nested far
    deeper than the interpreter allows. *)
Definition deep_text : string := PyStr.repeat "[" 100000.

End Samples.

(* ===================================================================== *)
(** ** The embedding on sample inputs *)
(* ===================================================================== *)

Example title_snake : PyStr.title (PyStr.replace_underscore "first_name") = "First Name".
Proof. reflexivity. Qed.

Example of_Z_neg : PyStr.of_Z (-15) = "-15".
Proof. reflexivity. Qed.

Example strip_no_break_space :
  PyStr.strip (String (ascii_of_nat 160) ("{} " ++ PyStr.str (ascii_of_nat 133))) = "{}".
Proof. reflexivity. Qed.

Example repr_no_break_space : PyStr.repr (PyStr.str (ascii_of_nat 160)) = "'\xa0'".
Proof. reflexivity. Qed.

Example repr_plain : PyStr.repr "it's" = String PyStr.dquote ("it's" ++ PyStr.str PyStr.dquote).
Proof. reflexivity. Qed.

Example to_str_nested :
  PyData.to_str (PList [PInt 1; PStr "a"; PNone]) = "[1, 'a', None]".
Proof. reflexivity. Qed.

Example one_third :
  PyFloat.int_true_divide 1 3 = inr (PyFloat.Finite false 6004799503160661 (-54)).
Proof. reflexivity. Qed.

Example loads_nested :
  Json.loads "[1, -2, true, null, {}]"
  = inr (PList [PInt 1; PInt (-2); PBool true; PNone; PDict []]).
Proof. reflexivity. Qed.

Example loads_trailing_comma : Json.loads "[1, 2,]" = inl JSONDecodeError.
Proof. reflexivity. Qed.

Example progress_one_third :
  Rprint.rprint_progress_bar 1 3 "Load" fresh
  = Returned tt
      (mkWorld [Markup "[cyan]Load: [██████░░░░░░░░░░░░░░] 1/3 (33.3%)[/cyan]"] []).
Proof. reflexivity. Qed.

(* ===================================================================== *)
(** ** Facts about slices *)
(* ===================================================================== *)

Section SliceFacts.

Lemma take_length (n : nat) (s : string) :
  String.length (PyStr.take n s) = Nat.min n (String.length s).
Proof.
  revert s; induction n as [|n IH]; intros [|c s]; simpl; auto.
Qed.

Lemma take_prefix (n : nat) (s : string) :
  String.prefix (PyStr.take n s) s = true.
Proof.
  revert s; induction n as [|n IH]; intros [|c s]; simpl; auto.
  destruct (ascii_dec c c) as [_|ne]; [apply IH | now destruct ne].
Qed.


Lemma str_slice_to_nonneg (n : Z) (s : string) :
  (0 <= n)%Z -> PyStr.slice_to n s = PyStr.take (Z.to_nat n) s.
Proof.
  intros H. unfold PyStr.slice_to.
  destruct (Z.leb_spec 0 n); [reflexivity | lia].
Qed.

Lemma str_slice_to_length (n : Z) (s : string) :
  (0 <= n <= PyStr.len s)%Z ->
  PyStr.len (PyStr.slice_to n s) = n.
Proof.
  intros H. rewrite str_slice_to_nonneg by lia.
  unfold PyStr.len in *. rewrite take_length. lia.
Qed.

Lemma list_slice_to_nonneg {A : Type} (n : Z) (l : list A) :
  (0 <= n)%Z -> PyData.slice_to n l = firstn (Z.to_nat n) l.
Proof.
  intros H. unfold PyData.slice_to.
  destruct (Z.leb_spec 0 n); [reflexivity | lia].
Qed.

Lemma list_slice_to_length {A : Type} (n : Z) (l : list A) :
  (0 <= n <= PyData.len l)%Z ->
  PyData.len (PyData.slice_to n l) = n.
Proof.
  intros H. rewrite list_slice_to_nonneg by lia.
  unfold PyData.len in *. rewrite length_firstn. lia.
Qed.


(** Rows that have passed the [isinstance] test are the list itself. *)
Lemma as_dicts_all (items : list pyval) :
  forallb PyData.is_dict items = true ->
  map PDict (Rprint.as_dicts items) = items.
Proof.
  induction items as [|item items IH]; simpl; intros H; [reflexivity|].
  apply andb_true_iff in H as [Hd Hrest].
  destruct item; try discriminate. simpl. now rewrite IH.
Qed.


Lemma as_dicts_length (items : list pyval) :
  forallb PyData.is_dict items = true ->
  List.length (Rprint.as_dicts items) = List.length items.
Proof.
  intros H. rewrite <- (as_dicts_all items H) at 2. now rewrite length_map.
Qed.

End SliceFacts.

(* ===================================================================== *)
(** ** Formatter dispatch *)
(* ===================================================================== *)

Section Dispatch.

Variable json_loads : string -> exn + pyval.


Lemma json_panel_serializable (data : pyval) (title : string) (w : world) :
  PyData.serializable data = true ->
  Rprint.json_panel data title w
  = Returned tt (write (RPanel (BodyJSON data)
                               ("[bold cyan]" ++ title ++ "[/bold cyan]") "cyan") w).
Proof.
  intros H. unfold Rprint.json_panel, Rprint.JSON_from_data, bind.
  now rewrite H.
Qed.

Lemma json_panel_unserializable (data : pyval) (title : string) (w : world) :
  PyData.serializable data = false ->
  Rprint.json_panel data title w = Raised TypeError w.
Proof.
  intros H. unfold Rprint.json_panel, Rprint.JSON_from_data, bind.
  now rewrite H.
Qed.



(** C3, as the code has it.  A string payload whose text, stripped of
    surrounding white space, starts with an opening brace is handed to
    [rprint_json]: when the text decodes, the decoded value is shown in the
    structured (JSON) panel whatever its size; any other string payload is
    written as the plain line [title: text], decodable or not. *)
Theorem display_any_string_dispatch (s : string) (title : string) :
  (PyStr.startswith (PyStr.strip s) "{" = true ->
     Rprint.rprint_display_any json_loads (PStr s) title
     = Rprint.rprint_json json_loads (PStr s) title
     /\ forall decoded w,
         json_loads s = inr decoded ->
         PyData.serializable decoded = true ->
         Rprint.rprint_display_any json_loads (PStr s) title w
         = Returned tt (write (RPanel (BodyJSON decoded)
                                      ("[bold cyan]" ++ title ++ "[/bold cyan]")
                                      "cyan") w))
  /\ (PyStr.startswith (PyStr.strip s) "{" = false ->
     forall w,
       Rprint.rprint_display_any json_loads (PStr s) title w
       = Returned tt (write (Markup ("[blue]ℹ " ++ (title ++ ": " ++ s) ++ "[/blue]")) w)).
Proof.
  split; intros H; unfold Rprint.rprint_display_any; rewrite H.
  - split; [reflexivity|]. intros decoded w Hd Hs.
    unfold Rprint.rprint_json. rewrite Hd. now apply json_panel_serializable.
  - reflexivity.
Qed.

(** C6, as the code has it.  When the decoder fails on the text of a string
    payload, what [rprint_json] does turns on the exception: on
    [JSONDecodeError] it returns normally, having written the one red notice
    [Invalid JSON string] and nothing else; any other exception is not
    caught and reaches the caller, with nothing written. *)
Theorem rprint_json_malformed (s : string) (title : string) (w : world) (e : exn) :
  json_loads s = inl e ->
  Rprint.rprint_json json_loads (PStr s) title w
  = match e with
    | JSONDecodeError => Returned tt (write (Markup "[red]Invalid JSON string[/red]") w)
    | _ => Raised e w
    end.
Proof.
  intros H. unfold Rprint.rprint_json. rewrite H. now destruct e.
Qed.

(** C8.  A table call with no rows writes the warning line instead of a
    table and returns; an empty list given to [rprint_display_any] takes
    that path. *)
Theorem empty_table_warning (title : string) (max_rows : Z) (w : world) :
  Rprint.rprint_table [] title max_rows w
  = Returned tt (write (Markup "[yellow]⚠ No data for table[/yellow]") w)
  /\ Rprint.rprint_display_any json_loads (PList []) title w
     = Returned tt (write (Markup "[yellow]⚠ No data for table[/yellow]") w)
  /\ Rprint.rprint_table [] title max_rows = Rprint.rprint_warning "No data for table".
Proof. repeat split. Qed.

End Dispatch.



(** C3, as the spec has it, fails: the text of a mapping with one key
    decodes, and the payload is not rendered as that mapping is (the
    key/value panel) but as the structured panel. *)
Lemma display_any_json_string_counterexample :
  Json.loads Samples.json_a1 = inr (PDict [("a", PInt 1)])
  /\ Rprint.rprint_display_any Json.loads (PDict [("a", PInt 1)]) "Data" fresh
     = Returned tt
         (mkWorld [RPanel (BodyMarkup "[cyan]A:[/cyan] [white]1[/white]")
                          "[bold blue]Data[/bold blue]" "blue"] [])
  /\ Rprint.rprint_display_any Json.loads (PStr Samples.json_a1) "Data" fresh
     = Returned tt
         (mkWorld [RPanel (BodyJSON (PDict [("a", PInt 1)]))
                          "[bold cyan]Data[/bold cyan]" "cyan"] [])
  /\ Rprint.rprint_display_any Json.loads (PStr Samples.json_a1) "Data" fresh
     <> Rprint.rprint_display_any Json.loads (PDict [("a", PInt 1)]) "Data" fresh.
Proof.
  repeat split; try reflexivity.
  vm_compute. discriminate.
Qed.

Lemma display_any_string_dispatch_witness :
  Rprint.rprint_display_any Json.loads (PStr "  {}") "Data"
  = Rprint.rprint_json Json.loads (PStr "  {}") "Data"
  /\ Rprint.rprint_display_any Json.loads (PStr "[1, 2]") "Data" fresh
     = Returned tt (write (Markup "[blue]ℹ Data: [1, 2][/blue]") fresh).
Proof.
  split.
  - apply (proj1 (display_any_string_dispatch Json.loads "  {}" "Data")).
    reflexivity.
  - apply (proj2 (display_any_string_dispatch Json.loads "[1, 2]" "Data")).
    reflexivity.
Defined.

Lemma rprint_json_malformed_witness :
  Rprint.rprint_json Json.loads (PStr "{not json") "Data" fresh
  = Returned tt (write (Markup "[red]Invalid JSON string[/red]") fresh).
Proof.
  apply (rprint_json_malformed Json.loads "{not json" "Data" fresh JSONDecodeError).
  reflexivity.
Defined.

Section DeepArrays.

Lemma repeat_bracket_chars (n : nat) :
  list_ascii_of_string (PyStr.repeat_nat "[" n) = List.repeat "["%char n.
Proof. induction n as [|n IH]; [reflexivity|]. simpl. now rewrite IH. Qed.

Lemma value_deep_array (room : nat) :
  forall fuel n,
    (room < n)%nat -> (2 * room < fuel)%nat ->
    Json.value fuel room (List.repeat "["%char n) = inl RecursionError.
Proof.
  induction room as [|room IH]; intros fuel n Hn Hf.
  - destruct fuel as [|fuel]; [lia|]. destruct n as [|n]; [lia|]. reflexivity.
  - destruct fuel as [|[|fuel]]; [lia | lia|]. destruct n as [|[|n]]; [lia | lia|].
    specialize (IH fuel (S n) ltac:(lia) ltac:(lia)).
    cbn [List.repeat] in *.
    simpl. simpl in IH. rewrite IH. reflexivity.
Qed.

(** Whatever room the interpreter has, a text that opens more arrays than
    that does not decode: the decoder raises [RecursionError]. *)
Lemma loads_deep_array (room n : nat) :
  (room < n)%nat ->
  Json.loads_within room (PyStr.repeat_nat "[" n) = inl RecursionError.
Proof.
  intros Hn. unfold Json.loads_within.
  rewrite repeat_bracket_chars, repeat_length.
  destruct n as [|n]; [lia|].
  cbn [List.repeat Json.skip_ws]. change (Json.is_ws "[") with false. cbv iota.
  change ("["%char :: List.repeat "["%char n) with (List.repeat "["%char (S n)).
  rewrite value_deep_array by lia. reflexivity.
Qed.

(** And [rprint_json] passes that exception on, having written nothing. *)
Lemma rprint_json_deep_array (room n : nat) (title : string) (w : world) :
  (room < n)%nat ->
  Rprint.rprint_json (Json.loads_within room) (PStr (PyStr.repeat_nat "[" n)) title w
  = Raised RecursionError w.
Proof.
  intros Hn. unfold Rprint.rprint_json. now rewrite loads_deep_array.
Qed.

End DeepArrays.

(** C6, as the spec has it, fails: a text of arrays nested deeper than the
    interpreter allows does not parse, the decoder raising [RecursionError],
    and [rprint_json] lets that exception reach the caller instead of
    writing the notice. *)
Lemma rprint_json_recursion_counterexample :
  Json.loads_within Json.recursion_limit Samples.deep_text = inl RecursionError
  /\ Rprint.rprint_json (Json.loads_within Json.recursion_limit)
                        (PStr Samples.deep_text) "Data" fresh
     = Raised RecursionError fresh.
Proof. split; vm_compute; reflexivity. Qed.

(* ===================================================================== *)
(** ** Truncation and the row cap *)
(* ===================================================================== *)

(** C4, as the spec has it, fails for table cells: a cell holding a text of
    200 characters shows its first 50 characters and no ellipsis after
    them. *)
Lemma table_cell_counterexample :
  PyStr.len Samples.long_text = 200%Z
  /\ Rprint.rprint_table [[("note", PStr Samples.long_text)]] "Notes" 10 fresh
     = Returned tt
         (mkWorld [RTable (mkTable "[bold blue]Notes[/bold blue]" ["Note"]
                                   [[PyStr.take 50 Samples.long_text]] None)] [])
  /\ PyStr.take 50 Samples.long_text <> PyStr.take 50 Samples.long_text ++ "...".
Proof.
  repeat split; try reflexivity.
  vm_compute. discriminate.
Qed.

(** C4, as the code has it.  [rprint_preview_text] cuts a text longer than a
    cap that is not negative to its first [max_chars] characters and appends
    the ellipsis [...]; a text no longer than the cap is written whole. *)
Theorem preview_text_truncation (text : string) (max_chars : Z) (w : world) :
  ((0 <= max_chars < PyStr.len text)%Z ->
     Rprint.rprint_preview_text text max_chars w
     = Returned tt
         (write (Markup ("[dim]" ++ (PyStr.take (Z.to_nat max_chars) text ++ "...")
                           ++ "[/dim]")) w)
     /\ PyStr.len (PyStr.take (Z.to_nat max_chars) text) = max_chars
     /\ String.prefix (PyStr.take (Z.to_nat max_chars) text) text = true)
  /\ ((PyStr.len text <= max_chars)%Z ->
     Rprint.rprint_preview_text text max_chars w
     = Returned tt (write (Markup ("[dim]" ++ text ++ "[/dim]")) w)).
Proof.
  split; intros H; unfold Rprint.rprint_preview_text.
  - destruct (Z.ltb_spec max_chars (PyStr.len text)) as [_|Hge]; [|lia].
    rewrite str_slice_to_nonneg by lia.
    split; [reflexivity|]. split.
    + unfold PyStr.len in *. rewrite take_length. lia.
    + apply take_prefix.
  - destruct (Z.ltb_spec max_chars (PyStr.len text)) as [Hlt|_]; [lia|].
    reflexivity.
Qed.

Lemma preview_text_truncation_witness :
  Rprint.rprint_preview_text Samples.long_text 50 fresh
  = Returned tt
      (write (Markup ("[dim]" ++ (PyStr.take 50 Samples.long_text ++ "...") ++ "[/dim]"))
             fresh)
  /\ PyStr.len (PyStr.take 50 Samples.long_text) = 50%Z.
Proof.
  destruct (proj1 (preview_text_truncation Samples.long_text 50 fresh))
    as [Hrun [Hlen _]].
  - vm_compute. split; [discriminate | reflexivity].
  - split; [exact Hrun | exact Hlen].
Defined.




(** With a negative cap the slice counts from the end: three rows under a
    cap of [-1] render two rows. *)
Example table_negative_cap :
  exists t,
    Rprint.rprint_table [Samples.numbered_row 1; Samples.numbered_row 2;
                         Samples.numbered_row 3] "Rows" (-1) fresh
    = Returned tt (write (RTable t) fresh)
    /\ List.length (table_rows t) = 2%nat
    /\ table_caption t = Some "Showing -1 of 3 rows".
Proof. eexists. split; [vm_compute; reflexivity|]. split; reflexivity. Qed.

(* ===================================================================== *)
(** ** Logging by level *)
(* ===================================================================== *)

Lemma info_is_not_bound : Rprint.lookup Rprint.module_globals "info" = None.
Proof. reflexivity. Qed.

Lemma level_helpers_are_bound :
  Forall (fun name => exists f, Rprint.lookup Rprint.module_globals name = Some (Rprint.Helper f))
         ["rprint_info"; "rprint_success"; "rprint_warning"; "rprint_error";
          "rprint_debug"; "rprint_progress_msg"].
Proof. repeat constructor; eexists; reflexivity. Qed.

(** C7 does not hold of the code.  The default handed to [level_map.get] is
    the name [info], which nothing in the module binds: evaluating it raises
    [NameError] before any lookup by level, so every call of [rprint_log]
    raises and writes nothing, for a level outside the six categories and
    for a level among them alike. *)
Theorem rprint_log_name_error (message level : string) (w : world) :
  Rprint.rprint_log message level w = Raised (NameError "info") w.
Proof.
  unfold Rprint.rprint_log, bind.
  repeat match goal with
         | |- context [Rprint.load_global ?name w] =>
             change (Rprint.load_global name w)
               with (match Rprint.lookup Rprint.module_globals name with
                     | Some b => Returned b w
                     | None => Raised (NameError name) w
                     end);
             cbv beta iota delta [Rprint.lookup Rprint.module_globals String.eqb Ascii.eqb Bool.eqb]
         end.
  reflexivity.
Qed.

(* ===================================================================== *)
(** ** Choice prompts *)
(* ===================================================================== *)

Section Prompt.

Variables (prompt : string) (choices : list string).

Lemma allowed_In (line : string) :
  existsb (String.eqb line) choices = true <-> In line choices.
Proof.
  rewrite existsb_exists. split.
  - intros [c [Hin Heq]]. apply String.eqb_eq in Heq. now subst.
  - intros Hin. exists line. split; [exact Hin | apply String.eqb_refl].
Qed.

Lemma Prompt_ask_loop_member (lines : list string) :
  forall shown answer w',
    Rprint.Prompt_ask_loop prompt choices lines shown = Returned answer w' ->
    In answer choices.
Proof.
  induction lines as [|line rest IH]; intros shown answer w' H; simpl in H.
  - discriminate.
  - destruct (existsb (String.eqb line) choices) eqn:Hok.
    + injection H as <- _. now apply allowed_In.
    + eapply IH, H.
Qed.

Lemma Prompt_ask_loop_no_raise (lines : list string) :
  forall shown, raises (Rprint.Prompt_ask_loop prompt choices lines shown) = false.
Proof.
  induction lines as [|line rest IH]; intros shown; simpl.
  - reflexivity.
  - destruct (existsb (String.eqb line) choices); [reflexivity | apply IH].
Qed.

(** The loop prompts once per rejected line and once more for the line it
    accepts. *)
Lemma Prompt_ask_loop_accepts (rejected : list string) :
  forall shown answer rest,
    Forall (fun line => ~ In line choices) rejected ->
    In answer choices ->
    Rprint.Prompt_ask_loop prompt choices (rejected ++ answer :: rest)%list shown
    = Returned answer
        (mkWorld (shown ++ repeat (RPrompt prompt choices) (S (List.length rejected)))%list
                 rest).
Proof.
  induction rejected as [|line rejected IH]; intros shown answer rest Hrej Hin; simpl.
  - apply allowed_In in Hin. now rewrite Hin.
  - inversion Hrej as [|? ? Hline Hrest]; subst.
    destruct (existsb (String.eqb line) choices) eqn:Hok.
    + exfalso. apply Hline. now apply allowed_In.
    + rewrite IH by assumption. now rewrite <- app_assoc.
Qed.

(** While every line typed so far is outside the choices, the call has not
    returned: it is at the prompt again. *)
Lemma Prompt_ask_loop_blocks (rejected : list string) :
  forall shown,
    Forall (fun line => ~ In line choices) rejected ->
    Rprint.Prompt_ask_loop prompt choices rejected shown
    = Blocked
        (mkWorld (shown ++ repeat (RPrompt prompt choices) (S (List.length rejected)))%list
                 []).
Proof.
  induction rejected as [|line rejected IH]; intros shown Hrej; simpl.
  - reflexivity.
  - inversion Hrej as [|? ? Hline Hrest]; subst.
    destruct (existsb (String.eqb line) choices) eqn:Hok.
    + exfalso. apply Hline. now apply allowed_In.
    + rewrite IH by assumption. now rewrite <- app_assoc.
Qed.

End Prompt.

(** C9.  For a list of choices that is not empty, [rprint_ask_choice] never
    raises; a value it returns is one of the choices; once the human has
    typed a line among the choices, it returns the first such line, having
    prompted again after each line outside the choices; as long as only
    lines outside the choices have been typed it has not returned; and there
    is a line the human can type that makes it return at once. *)
Theorem ask_choice_member (question : string) (choices : list string) (w : world) :
  choices <> [] ->
  (forall answer w',
      Rprint.rprint_ask_choice question choices w = Returned answer w' ->
      In answer choices)
  /\ raises (Rprint.rprint_ask_choice question choices w) = false
  /\ (forall rejected answer rest,
         stdin w = (rejected ++ answer :: rest)%list ->
         Forall (fun line => ~ In line choices) rejected ->
         In answer choices ->
         Rprint.rprint_ask_choice question choices w
         = Returned answer
             (mkWorld (stdout w
                         ++ repeat (RPrompt ("[cyan]" ++ question ++ "[/cyan]") choices)
                                   (S (List.length rejected)))%list
                      rest))
  /\ (Forall (fun line => ~ In line choices) (stdin w) ->
      returns (Rprint.rprint_ask_choice question choices w) = false)
  /\ (exists answer,
        In answer choices
        /\ forall shown rest,
            Rprint.rprint_ask_choice question choices (mkWorld shown (answer :: rest))
            = Returned answer
                (mkWorld (shown ++ [RPrompt ("[cyan]" ++ question ++ "[/cyan]") choices])%list
                         rest)).
Proof.
  intros Hne. unfold Rprint.rprint_ask_choice, Rprint.Prompt_ask.
  split; [|split; [|split; [|split]]].
  - intros answer w' H. eapply Prompt_ask_loop_member, H.
  - apply Prompt_ask_loop_no_raise.
  - intros rejected answer rest Hin Hrej Hans. rewrite Hin.
    now apply Prompt_ask_loop_accepts.
  - intros Hrej. now rewrite Prompt_ask_loop_blocks.
  - destruct choices as [|first others]; [now destruct Hne|].
    exists first. split; [now left|]. intros shown rest.
    cbn [stdin stdout].
    apply (Prompt_ask_loop_accepts _ (first :: others) [] shown first rest).
    + constructor.
    + now left.
Qed.

Lemma ask_choice_member_witness :
  Rprint.rprint_ask_choice "pick" ["a"; "b"] (mkWorld [] ["c"; "a"])
  = Returned "a"
      (mkWorld [RPrompt "[cyan]pick[/cyan]" ["a"; "b"];
                RPrompt "[cyan]pick[/cyan]" ["a"; "b"]] [])
  /\ returns (Rprint.rprint_ask_choice "pick" ["a"; "b"] (mkWorld [] ["c"])) = false.
Proof.
  split.
  - apply (proj1 (proj2 (proj2
             (ask_choice_member "pick" ["a"; "b"] (mkWorld [] ["c"; "a"])
                                ltac:(discriminate))))
             ["c"] "a" []).
    + reflexivity.
    + constructor; [|constructor].
      intros [H|[H|[]]]; discriminate.
    + now left.
  - apply (proj1 (proj2 (proj2 (proj2
             (ask_choice_member "pick" ["a"; "b"] (mkWorld [] ["c"])
                                ltac:(discriminate)))))).
    constructor; [|constructor].
    intros [H|[H|[]]]; discriminate.
Defined.

(* ===================================================================== *)
(** ** Rounding stays finite below the overflow threshold *)
(* ===================================================================== *)

Module FloatFacts.

Import PyFloat FloatBound.
Local Open Scope Z_scope.

Lemma below_weaken (k k' : Z) (a : float) : k <= k' -> below k a -> below k' a.
Proof. destruct a; simpl; intuition lia. Qed.

Lemma below_neg (k : Z) (a : float) : below k a -> below k (neg a).
Proof. destruct a; simpl; auto. Qed.

Lemma log2_bounds (n : Z) : 0 < n -> 2 ^ Z.log2 n <= n < 2 ^ (Z.log2 n + 1).
Proof. intros H. replace (Z.log2 n + 1) with (Z.succ (Z.log2 n)) by lia. now apply Z.log2_spec. Qed.

(** Rescaling by [2^j] divides the fraction by [2^j]. *)
Lemma scale_shift (n d s j : Z) :
  0 <= j ->
  fst (scale n d (s - j)) * snd (scale n d s) * 2 ^ j
  = fst (scale n d s) * snd (scale n d (s - j)).
Proof.
  intros Hj. unfold scale.
  destruct (Z.leb_spec 0 s), (Z.leb_spec 0 (s - j)); cbn [fst snd]; try lia.
  - replace s with ((s - j) + j) at 2 by lia.
    rewrite Z.pow_add_r by lia. ring.
  - replace s with (j - - (s - j)) at 1 by lia.
    assert (2 ^ j = 2 ^ (j - - (s - j)) * 2 ^ (- (s - j))) as ->.
    { rewrite <- Z.pow_add_r by lia. f_equal. lia. }
    replace (j - - (s - j)) with s by lia. ring.
  - replace (- (s - j)) with (- s + j) by lia.
    rewrite Z.pow_add_r by lia. ring.
Qed.

Lemma scale_pos (n d s : Z) :
  0 < n -> 0 < d -> 0 < fst (scale n d s) /\ 0 < snd (scale n d s).
Proof.
  intros Hn Hd. unfold scale.
  destruct (Z.leb_spec 0 s); cbn [fst snd]; split; try assumption.
  - apply Z.mul_pos_pos; [assumption | apply Z.pow_pos_nonneg; lia].
  - apply Z.mul_pos_pos; [assumption | apply Z.pow_pos_nonneg; lia].
Qed.

(** Shifting the last place up by [j] places turns a bound [2^(b+j)] on the
    fraction into a bound [2^b]. *)
Lemma scale_shift_lt (n d s j b : Z) :
  0 < n -> 0 < d -> 0 <= j -> 0 <= b ->
  fst (scale n d s) < 2 ^ (b + j) * snd (scale n d s) ->
  fst (scale n d (s - j)) < 2 ^ b * snd (scale n d (s - j)).
Proof.
  intros Hn Hd Hj Hb H.
  pose proof (scale_shift n d s j Hj) as E.
  destruct (scale_pos n d s Hn Hd) as [HN HD].
  destruct (scale_pos n d (s - j) Hn Hd) as [HN' HD'].
  set (N := fst (scale n d s)) in *. set (D := snd (scale n d s)) in *.
  set (N' := fst (scale n d (s - j))) in *. set (D' := snd (scale n d (s - j))) in *.
  rewrite Z.pow_add_r in H by lia.
  assert (0 < 2 ^ j) by (apply Z.pow_pos_nonneg; lia).
  assert (0 < 2 ^ b) by (apply Z.pow_pos_nonneg; lia).
  apply Z.mul_lt_mono_pos_r with (p := D * 2 ^ j); [nia|].
  replace (N' * (D * 2 ^ j)) with (N * D') by lia.
  nia.
Qed.

(** At the first guess of the last place the fraction is below [2^54]. *)
Lemma scale_first_guess (n d x : Z) :
  0 < n -> 0 < d ->
  forall t, t = Z.log2 n - Z.log2 d + x - 53 ->
  fst (scale n d (x - t)) < 2 ^ 54 * snd (scale n d (x - t)).
Proof.
  intros Hn Hd t Ht.
  pose proof (log2_bounds n Hn) as [_ Hn2].
  pose proof (log2_bounds d Hd) as [Hd1 _].
  pose proof (Z.log2_nonneg n). pose proof (Z.log2_nonneg d).
  replace (x - t) with (53 - Z.log2 n + Z.log2 d) by lia.
  unfold scale. destruct (Z.leb_spec 0 (53 - Z.log2 n + Z.log2 d)); cbn [fst snd].
  - assert (0 < 2 ^ (53 - Z.log2 n + Z.log2 d)) by (apply Z.pow_pos_nonneg; lia).
    apply Z.lt_le_trans with (2 ^ (Z.log2 n + 1) * 2 ^ (53 - Z.log2 n + Z.log2 d)).
    + apply Z.mul_lt_mono_pos_r; assumption.
    + rewrite <- Z.pow_add_r by lia.
      replace (Z.log2 n + 1 + (53 - Z.log2 n + Z.log2 d)) with (54 + Z.log2 d) by lia.
      rewrite Z.pow_add_r by lia.
      apply Z.mul_le_mono_nonneg_l; [apply Z.pow_nonneg; lia | assumption].
  - apply Z.lt_le_trans with (2 ^ (Z.log2 n + 1)); [assumption|].
    replace (Z.log2 n + 1)
      with (54 + (Z.log2 d + - (53 - Z.log2 n + Z.log2 d))) by lia.
    rewrite Z.pow_add_r by lia. rewrite Z.pow_add_r by lia.
    assert (0 < 2 ^ (- (53 - Z.log2 n + Z.log2 d))) by (apply Z.pow_pos_nonneg; lia).
    assert (0 < 2 ^ 54) by (apply Z.pow_pos_nonneg; lia).
    nia.
Qed.

Lemma last_place_bounds (n d x : Z) :
  0 < n -> 0 < d ->
  let t := Z.log2 n - Z.log2 d + x - 53 in
  let e := last_place n d x in
  t <= e <= Z.max (t + 1) (-1074)
  /\ fst (scale n d (x - e)) < 2 ^ 53 * snd (scale n d (x - e)).
Proof.
  intros Hn Hd t e.
  pose proof (scale_first_guess n d x Hn Hd t eq_refl) as H54.
  destruct (scale_pos n d (x - t) Hn Hd) as [HN HD].
  unfold e, last_place. fold t.
  destruct (scale n d (x - t)) as [n0 d0] eqn:E0.
  rewrite ?E0 in H54. cbn [fst snd] in *.
  destruct (Z.ltb_spec (n0 / d0) (2 ^ 53)) as [Hq|Hq].
  - split; [lia|].
    destruct (Z.max_spec t (-1074)) as [[Hlt ->]|[Hge ->]].
    + replace (x - -1074) with ((x - t) - (-1074 - t)) by lia.
      apply scale_shift_lt; try lia. rewrite E0. cbn [fst snd].
      apply Z.lt_le_trans with (2 ^ 54 * d0); [assumption|].
      apply Z.mul_le_mono_nonneg_r; [lia|].
      apply Z.pow_le_mono_r; lia.
    + rewrite E0. cbn [fst snd].
      apply Z.nle_gt. intros Hle.
      assert (2 ^ 53 <= n0 / d0); [|lia].
      apply Z.div_le_lower_bound; [assumption|]. now rewrite Z.mul_comm.
  - split; [lia|].
    set (e1 := Z.max (t + 1) (-1074)).
    assert (t + 1 <= e1) by (unfold e1; lia).
    replace (x - e1) with ((x - t) - (e1 - t)) by lia.
    apply scale_shift_lt; try lia. rewrite E0. cbn [fst snd].
    apply Z.lt_le_trans with (2 ^ 54 * d0); [assumption|].
    apply Z.mul_le_mono_nonneg_r; [lia|].
    apply Z.pow_le_mono_r; lia.
Qed.

Lemma round_half_even_bounds (n d b : Z) :
  0 <= n -> 0 < d -> n < b * d -> 0 <= round_half_even n d <= b.
Proof.
  intros Hn Hd Hlt. unfold round_half_even.
  assert (0 <= n / d) by (apply Z.div_pos; lia).
  assert (n / d < b) by (apply Z.div_lt_upper_bound; lia).
  destruct (2 * (n mod d) ?= d); [destruct (Z.even (n / d))| |]; lia.
Qed.

(** A positive quantity below [2^j], with [j] in the range of the format,
    rounds to a finite float. *)
Lemma round_pos_below (s : bool) (n d x j : Z) :
  0 < n -> 0 < d ->
  Z.log2 n - Z.log2 d + x + 1 <= j ->
  52 <= j <= 1023 ->
  below (j + 1) (round_pos s n d x).
Proof.
  intros Hn Hd Hmag Hj.
  destruct (last_place_bounds n d x Hn Hd) as [[_ He] Hfrac].
  unfold round_pos.
  set (e := last_place n d x) in *.
  destruct (scale_pos n d (x - e) Hn Hd) as [HN HD].
  destruct (scale n d (x - e)) as [n1 d1]. cbn [fst snd] in *.
  pose proof (round_half_even_bounds n1 d1 (2 ^ 53) ltac:(lia) HD Hfrac) as Hm.
  set (m := round_half_even n1 d1) in *.
  assert (e + 53 <= j) by lia.
  assert (2 ^ 52 < 2 ^ 53) by (apply Z.pow_lt_mono_r; lia).
  assert (0 < 2 ^ 52) by (apply Z.pow_pos_nonneg; lia).
  destruct (Z.eqb_spec m 0) as [->|Hm0]; [cbn [below]; lia|].
  destruct (Z.eqb_spec m (2 ^ 53)) as [->|Hm53].
  - destruct (Z.leb_spec (e + 1) 971); [cbn [below]; lia | lia].
  - destruct (Z.leb_spec e 971); [cbn [below]; lia | lia].
Qed.

Lemma round_below (s : bool) (n d x j : Z) :
  0 <= n -> 0 < d ->
  (0 < n -> Z.log2 n - Z.log2 d + x + 1 <= j) ->
  52 <= j <= 1023 ->
  below (j + 1) (round s n d x).
Proof.
  intros Hn Hd Hmag Hj. unfold round.
  destruct (Z.eqb_spec n 0) as [->|Hn0].
  - cbn [below]. split; [|lia]. split; [lia | apply Z.pow_pos_nonneg; lia].
  - apply round_pos_below; try assumption; lia.
Qed.

Lemma log2_lt_pow2_le (n k : Z) : 0 < n -> n < 2 ^ k -> Z.log2 n + 1 <= k.
Proof.
  intros Hn H.
  destruct (Z.le_gt_cases 0 k) as [Hk|Hk].
  - apply Z.log2_lt_pow2 in H; lia.
  - rewrite Z.pow_neg_r in H; lia.
Qed.

Lemma pow2_pos (k : Z) : 0 <= k -> 0 < 2 ^ k.
Proof. intros H. apply Z.pow_pos_nonneg; lia. Qed.

Lemma mul_below (k1 k2 : Z) (a b : float) :
  below k1 a -> below k2 b -> 52 <= k1 + k2 <= 1023 ->
  below (k1 + k2 + 1) (mul a b).
Proof.
  destruct a as [s m e| |], b as [s' m' e'| |]; cbn [below]; try tauto.
  intros [Hm He] [Hm' He'] Hk. unfold mul.
  apply round_below; [apply Z.mul_nonneg_nonneg; lia | lia | | lia].
  intros Hpos. rewrite Z.log2_1.
  assert (Z.log2 (m * m') + 1 <= 106); [|lia].
  apply log2_lt_pow2_le; [assumption|].
  change 106 with (53 + 53). rewrite Z.pow_add_r by lia.
  apply Z.mul_lt_mono_nonneg; lia.
Qed.

Lemma add_below (k1 k2 : Z) (a b : float) :
  below k1 a -> below k2 b -> 51 <= Z.max k1 k2 <= 1022 ->
  below (Z.max k1 k2 + 2) (add a b).
Proof.
  destruct a as [s m e| |], b as [s' m' e'| |]; cbn [below]; try tauto.
  intros [Hm He] [Hm' He'] Hk. unfold add.
  set (K := Z.max k1 k2) in *.
  set (x := Z.min e e').
  set (total := signed s m * 2 ^ (e - x) + signed s' m' * 2 ^ (e' - x)).
  assert (Hx : 0 <= e - x /\ 0 <= e' - x) by (unfold x; lia).
  assert (HK : k1 <= K /\ k2 <= K) by (unfold K; lia).
  assert (Hbound : Z.abs total < 2 ^ (K - x + 1)).
  { assert (H1 : m * 2 ^ (e - x) < 2 ^ (K - x)).
    { apply Z.lt_le_trans with (2 ^ 53 * 2 ^ (e - x)).
      - apply Z.mul_lt_mono_pos_r; [apply pow2_pos|]; lia.
      - rewrite <- Z.pow_add_r by lia. apply Z.pow_le_mono_r; lia. }
    assert (H2 : m' * 2 ^ (e' - x) < 2 ^ (K - x)).
    { apply Z.lt_le_trans with (2 ^ 53 * 2 ^ (e' - x)).
      - apply Z.mul_lt_mono_pos_r; [apply pow2_pos|]; lia.
      - rewrite <- Z.pow_add_r by lia. apply Z.pow_le_mono_r; lia. }
    assert (0 <= m * 2 ^ (e - x)) by (apply Z.mul_nonneg_nonneg; [|apply Z.pow_nonneg]; lia).
    assert (0 <= m' * 2 ^ (e' - x)) by (apply Z.mul_nonneg_nonneg; [|apply Z.pow_nonneg]; lia).
    rewrite Z.pow_add_r by lia. change (2 ^ 1) with 2.
    unfold total, signed. destruct s, s'; lia. }
  destruct (Z.eqb_spec total 0) as [_|Hne].
  - cbn [below]. split; [|lia]. split; [lia | apply pow2_pos; lia].
  - replace (K + 2) with (K + 1 + 1) by lia.
    apply round_pos_below; try lia.
    rewrite Z.log2_1.
    assert (Z.log2 (Z.abs total) + 1 <= K - x + 1); [|lia].
    apply log2_lt_pow2_le; [lia | assumption].
Qed.

Lemma sub_below (k1 k2 : Z) (a b : float) :
  below k1 a -> below k2 b -> 51 <= Z.max k1 k2 <= 1022 ->
  below (Z.max k1 k2 + 2) (sub a b).
Proof.
  intros Ha Hb Hk. unfold sub. apply add_below; [assumption | now apply below_neg | assumption].
Qed.

Lemma of_Z_5 : of_Z 5 = five.
Proof. reflexivity. Qed.

Lemma of_Z_100 : of_Z 100 = hundred.
Proof. reflexivity. Qed.

Lemma one_value : one = Finite false (2 ^ 52) (-52).
Proof. reflexivity. Qed.

Lemma div_five_below (k : Z) (a : float) :
  below k a -> 54 <= k <= 1025 -> below (k - 1) (div a five).
Proof.
  destruct a as [s m e| |]; cbn [below]; try tauto.
  intros [Hm He] Hk. unfold div, five.
  destruct (Z.eqb_spec (5 * 2 ^ 50) 0) as [E|_]; [discriminate E|].
  replace (k - 1) with (k - 2 + 1) by lia.
  apply round_below; [lia | reflexivity | | lia].
  intros Hpos.
  assert (Z.log2 m + 1 <= 53) by (apply log2_lt_pow2_le; lia).
  change (Z.log2 (5 * 2 ^ 50)) with 52. lia.
Qed.

Lemma fmod_five_below (k : Z) (a : float) :
  below k a -> below 53 (fmod a five).
Proof.
  destruct a as [s m e| |]; cbn [below]; try tauto.
  intros [Hm He]. unfold fmod, five.
  destruct (Z.eqb_spec (5 * 2 ^ 50) 0) as [E|_]; [discriminate E|].
  set (x := Z.min e (-50)).
  assert (Hx : 0 <= e - x /\ 0 <= -50 - x) by (unfold x; lia).
  set (B := 5 * 2 ^ 50 * 2 ^ (-50 - x)).
  assert (HB : 0 < B) by (unfold B; apply Z.mul_pos_pos; [reflexivity | apply pow2_pos; lia]).
  assert (HB3 : B < 2 ^ (3 - x)).
  { unfold B. replace (3 - x) with (53 + (-50 - x)) by lia.
    rewrite Z.pow_add_r by lia.
    apply Z.mul_lt_mono_pos_r; [apply pow2_pos; lia | reflexivity]. }
  pose proof (Z.mod_pos_bound (m * 2 ^ (e - x)) B HB) as HR.
  change 53 with (52 + 1).
  apply round_below; [lia | lia | | lia].
  intros Hpos. rewrite Z.log2_1.
  assert (Z.log2 ((m * 2 ^ (e - x)) mod B) + 1 <= 3 - x); [|lia].
  apply log2_lt_pow2_le; lia.
Qed.

Lemma floor_below (k : Z) (a : float) :
  below k a -> below (Z.max k 55) (floor a).
Proof.
  destruct a as [s m e| |]; cbn [below]; try tauto.
  intros [Hm He]. unfold floor.
  destruct (Z.leb_spec 0 e) as [He0|He0].
  - cbn [below]. lia.
  - assert (Hp : 0 < 2 ^ (- e)) by (apply pow2_pos; lia).
    assert (Hq : 0 <= m / 2 ^ (- e) <= m).
    { split; [apply Z.div_pos; lia|]. apply Z.div_le_upper_bound; [lia|]. nia. }
    apply below_weaken with (54 + 1); [lia|].
    assert (Hlog : forall n, 0 < n -> n <= 2 ^ 53 -> Z.log2 n - Z.log2 1 + 0 + 1 <= 54).
    { intros n Hn Hle. rewrite Z.log2_1.
      assert (Z.log2 n + 1 <= 54); [|lia].
      apply log2_lt_pow2_le; [assumption|].
      apply Z.le_lt_trans with (2 ^ 53); [assumption | apply Z.pow_lt_mono_r; lia]. }
    destruct s.
    + apply round_below; [destruct (m mod 2 ^ (- e) =? 0); lia | lia | | lia].
      intros Hpos. apply Hlog; [assumption|].
      destruct (m mod 2 ^ (- e) =? 0); lia.
    + apply round_below; [lia | lia | | lia].
      intros Hpos. apply Hlog; lia.
Qed.

Lemma div_mod_quotient_five_below (k : Z) (vx : float) :
  below k vx -> 53 <= k <= 1019 -> below (k + 5) (div_mod_quotient vx five).
Proof.
  intros Hvx Hk. unfold div_mod_quotient.
  pose proof (fmod_five_below k vx Hvx) as Hmod.
  set (mod_ := fmod vx five) in *.
  assert (Hdiv0 : below (k + 1) (div (sub vx mod_) five)).
  { replace (k + 1) with (k + 2 - 1) by lia.
    apply div_five_below; [|lia].
    apply below_weaken with (Z.max k 53 + 2); [lia|].
    apply sub_below; [assumption | assumption | lia]. }
  set (div0 := div (sub vx mod_) five) in *.
  assert (Hone : below 1 one) by (rewrite one_value; cbn [below]; lia).
  assert (Hdiv1 : below (k + 3)
            (if is_nonzero mod_ && negb (Bool.eqb (ltb five zero) (ltb mod_ zero))
             then sub div0 one else div0)).
  { destruct (is_nonzero mod_ && negb (Bool.eqb (ltb five zero) (ltb mod_ zero))).
    - apply below_weaken with (Z.max (k + 1) 1 + 2); [lia|].
      apply sub_below; [assumption | assumption | lia].
    - apply below_weaken with (k + 1); [lia | assumption]. }
  set (div1 := if is_nonzero mod_ && negb (Bool.eqb (ltb five zero) (ltb mod_ zero))
               then sub div0 one else div0) in *.
  destruct (is_nonzero div1).
  - assert (Hfloor : below (k + 3) (floor div1)).
    { apply below_weaken with (Z.max (k + 3) 55); [lia|]. now apply floor_below. }
    destruct (ltb half (sub div1 (floor div1))).
    + apply below_weaken with (Z.max (k + 3) 1 + 2); [lia|].
      apply add_below; [assumption | assumption | lia].
    + apply below_weaken with (k + 3); [lia | assumption].
  - unfold copysign_zero. cbn [below]. split; [|lia].
    split; [lia | apply pow2_pos; lia].
Qed.

Lemma int_true_divide_below (a b : Z) :
  b <> 0 -> Z.abs a < 2 ^ 1000 * Z.abs b ->
  exists q, int_true_divide a b = inr q /\ below 1002 q.
Proof.
  intros Hb Hlt. unfold int_true_divide.
  destruct (Z.eqb_spec b 0) as [E|_]; [contradiction|].
  assert (H : below (1001 + 1) (round (xorb (a <? 0) (b <? 0)) (Z.abs a) (Z.abs b) 0)).
  { apply round_below; [lia | lia | | lia].
    intros Hpos.
    pose proof (log2_bounds (Z.abs b) ltac:(lia)) as [_ Hb2].
    pose proof (Z.log2_nonneg (Z.abs b)).
    assert (Z.log2 (Z.abs a) + 1 <= 1000 + (Z.log2 (Z.abs b) + 1)); [|lia].
    apply log2_lt_pow2_le; [assumption|].
    rewrite Z.pow_add_r by lia.
    apply Z.lt_trans with (2 ^ 1000 * Z.abs b); [assumption|].
    apply Z.mul_lt_mono_pos_l; [apply pow2_pos; lia | assumption]. }
  destruct (round (xorb (a <? 0) (b <? 0)) (Z.abs a) (Z.abs b) 0) as [s m e| |];
    cbn [below] in H; try contradiction.
  eexists. split; [reflexivity|]. exact H.
Qed.

Lemma percentage_floor_divide (q : float) :
  below 1002 q ->
  exists fifths filled,
    floor_divide (mul q (of_Z 100)) (of_Z 5) = inr fifths
    /\ to_int fifths = inr filled.
Proof.
  intros Hq. rewrite of_Z_100, of_Z_5.
  assert (Hh : below 7 hundred).
  { unfold hundred. cbn [below]. split; [|lia]. split; [lia | reflexivity]. }
  pose proof (mul_below 1002 7 q hundred Hq Hh ltac:(lia)) as Hp.
  pose proof (div_mod_quotient_five_below _ _ Hp ltac:(lia)) as Hf.
  unfold floor_divide. change (is_nonzero five) with true. cbv iota.
  destruct (div_mod_quotient (mul q hundred) five) as [s m e| |];
    cbn [below] in Hf; try contradiction.
  do 2 eexists. split; reflexivity.
Qed.





End FloatFacts.

(* ===================================================================== *)
(** ** Panel bodies *)
(* ===================================================================== *)

Section StringFacts.

Lemma append_empty_r (s : string) : s ++ "" = s.
Proof. induction s as [|c s IH]; simpl; [reflexivity | now rewrite IH]. Qed.

Lemma append_assoc (a b c : string) : (a ++ b) ++ c = a ++ (b ++ c).
Proof. induction a as [|x a IH]; simpl; [reflexivity | now rewrite IH]. Qed.

Lemma rev_onto_spec (s acc : string) : PyStr.rev_onto s acc = PyStr.rev s ++ acc.
Proof.
  unfold PyStr.rev. revert acc.
  induction s as [|c s IH]; intros acc; simpl; [reflexivity|].
  rewrite (IH (String c "")), IH, append_assoc. reflexivity.
Qed.

Lemma rev_append (a b : string) : PyStr.rev (a ++ b) = PyStr.rev b ++ PyStr.rev a.
Proof.
  induction a as [|c a IH]; simpl.
  - now rewrite append_empty_r.
  - unfold PyStr.rev at 1 3. simpl. rewrite !rev_onto_spec, IH, append_assoc. reflexivity.
Qed.

Lemma rev_involutive (s : string) : PyStr.rev (PyStr.rev s) = s.
Proof.
  induction s as [|c s IH]; [reflexivity|].
  unfold PyStr.rev at 2. simpl. rewrite rev_onto_spec, rev_append, IH. reflexivity.
Qed.

(** [rstrip] takes one trailing line feed off a text that ends with a
    character that is not white space. *)
Lemma rstrip_line (s : string) (c : ascii) :
  PyStr.is_space c = false ->
  PyStr.rstrip ((s ++ PyStr.str c) ++ Rprint.newline) = s ++ PyStr.str c.
Proof.
  intros Hc. unfold PyStr.rstrip.
  rewrite !rev_append. unfold Rprint.newline, PyStr.str.
  change (PyStr.rev (String (ascii_of_nat 10) "")) with (String (ascii_of_nat 10) "").
  change (PyStr.rev (String c "")) with (String c "").
  simpl. rewrite Hc.
  change (String c (PyStr.rev s)) with (PyStr.rev (String c "") ++ PyStr.rev s).
  rewrite <- rev_append, rev_involutive. reflexivity.
Qed.

End StringFacts.

Section PanelBodies.

Lemma with_feeds_join (text : string) (texts : list string) :
  with_feeds (text :: texts) = PyStr.join Rprint.newline (text :: texts) ++ Rprint.newline.
Proof.
  revert text. induction texts as [|next texts IH]; intros text.
  - simpl. now rewrite append_empty_r.
  - change (with_feeds (text :: next :: texts))
      with ((text ++ Rprint.newline) ++ with_feeds (next :: texts)).
    rewrite IH.
    change (PyStr.join Rprint.newline (text :: next :: texts))
      with (text ++ Rprint.newline ++ PyStr.join Rprint.newline (next :: texts)).
    now rewrite !append_assoc.
Qed.

Lemma join_closes (text : string) (texts : list string) :
  Forall closes (text :: texts) -> closes (PyStr.join Rprint.newline (text :: texts)).
Proof.
  revert text. induction texts as [|next texts IH]; intros text H.
  - now inversion H.
  - inversion H as [|? ? _ Hrest]; subst.
    destruct (IH next Hrest) as [s Hs].
    exists (text ++ Rprint.newline ++ s).
    change (PyStr.join Rprint.newline (text :: next :: texts))
      with (text ++ Rprint.newline ++ PyStr.join Rprint.newline (next :: texts)).
    rewrite Hs. now rewrite !append_assoc.
Qed.

Lemma rstrip_with_feeds (texts : list string) :
  Forall closes texts ->
  PyStr.rstrip (with_feeds texts) = PyStr.join Rprint.newline texts.
Proof.
  destruct texts as [|text texts]; intros H; [reflexivity|].
  rewrite with_feeds_join.
  destruct (join_closes text texts H) as [s ->].
  apply (rstrip_line s "]"%char). reflexivity.
Qed.

Lemma key_value_line_text (item : string * pyval) :
  Rprint.key_value_line item = key_value_text item ++ Rprint.newline.
Proof.
  unfold Rprint.key_value_line, key_value_text. now rewrite !append_assoc.
Qed.

Lemma list_line_text (numbered : bool) (i : Z) (item : string) :
  Rprint.list_line numbered i item = list_text numbered i item ++ Rprint.newline.
Proof.
  unfold Rprint.list_line, list_text. now rewrite !append_assoc.
Qed.

Lemma key_value_content (data : dict) (content : string) :
  fold_left (fun content item => content ++ Rprint.key_value_line item) data content
  = content ++ with_feeds (map key_value_text data).
Proof.
  revert content. induction data as [|item data IH]; intros content.
  - cbn. now rewrite append_empty_r.
  - cbn [fold_left map]. rewrite IH, append_assoc, key_value_line_text. reflexivity.
Qed.

Lemma list_content_spec (numbered : bool) (items : list string) :
  forall i content,
    Rprint.list_content numbered i items content
    = content ++ with_feeds (list_texts numbered i items).
Proof.
  induction items as [|item items IH]; intros i content.
  - cbn. now rewrite append_empty_r.
  - cbn [Rprint.list_content list_texts]. rewrite IH, append_assoc, list_line_text.
    reflexivity.
Qed.

Lemma key_value_text_closes (data : dict) : Forall closes (map key_value_text data).
Proof.
  apply Forall_forall. intros text Hin. apply in_map_iff in Hin as [item [<- _]].
  unfold key_value_text, closes.
  exists ("[cyan]" ++ PyStr.title (PyStr.replace_underscore (fst item))
            ++ ":[/cyan] [white]" ++ PyData.to_str (snd item) ++ "[/white").
  rewrite !append_assoc. reflexivity.
Qed.

Lemma list_texts_closes (numbered : bool) (items : list string) :
  forall i, Forall closes (list_texts numbered i items).
Proof.
  induction items as [|item items IH]; intros i; simpl; constructor; [|apply IH].
  unfold list_text, closes.
  exists ("[cyan]" ++ (if numbered then PyStr.of_Z i ++ ". " else "• ")
            ++ "[/cyan][white]" ++ item ++ "[/white").
  rewrite !append_assoc. reflexivity.
Qed.

(** The body of a key/value panel. *)
Lemma key_value_body (data : dict) (title : string) (w : world) :
  Rprint.rprint_key_value data title w
  = Returned tt
      (write (RPanel (BodyMarkup (PyStr.join Rprint.newline (map key_value_text data)))
                     ("[bold blue]" ++ title ++ "[/bold blue]") "blue") w).
Proof.
  unfold Rprint.rprint_key_value, rprint.
  rewrite key_value_content. cbn [append].
  now rewrite rstrip_with_feeds by apply key_value_text_closes.
Qed.

(** The body of a list panel. *)
Lemma list_body (items : list string) (title : string) (numbered : bool) (w : world) :
  Rprint.rprint_list items title numbered w
  = Returned tt
      (write (RPanel (BodyMarkup (PyStr.join Rprint.newline (list_texts numbered 1 items)))
                     ("[bold blue]" ++ title ++ "[/bold blue]") "blue") w).
Proof.
  unfold Rprint.rprint_list, rprint.
  rewrite list_content_spec. cbn [append].
  now rewrite rstrip_with_feeds by apply list_texts_closes.
Qed.

End PanelBodies.

Lemma list_texts_nth (numbered : bool) (items : list string) :
  forall i k item,
    nth_error items k = Some item ->
    nth_error (list_texts numbered i items) k
    = Some (list_text numbered (i + Z.of_nat k) item).
Proof.
  induction items as [|first items IH]; intros i k item Hk.
  - now destruct k.
  - destruct k as [|k]; cbn [list_texts nth_error] in *.
    + injection Hk as ->. now rewrite Z.add_0_r.
    + rewrite (IH (i + 1)%Z k item Hk). do 2 f_equal. lia.
Qed.

Lemma list_texts_length (numbered : bool) (items : list string) :
  forall i, List.length (list_texts numbered i items) = List.length items.
Proof.
  induction items as [|first items IH]; intros i; simpl; [reflexivity | now rewrite IH].
Qed.


(** X2.  [rprint_list] writes one blue panel whose body has one line per
    item, in order, joined by line feeds with none left at the end; with
    numbering the item at index [k] carries the number [k + 1], without it
    every item carries a bullet. *)
Theorem list_panel_numbering (items : list string) (title : string) (numbered : bool)
        (w : world) :
  Rprint.rprint_list items title numbered w
  = Returned tt
      (write (RPanel (BodyMarkup (PyStr.join Rprint.newline (list_texts numbered 1 items)))
                     ("[bold blue]" ++ title ++ "[/bold blue]") "blue") w)
  /\ List.length (list_texts numbered 1 items) = List.length items
  /\ forall k item,
      nth_error items k = Some item ->
      nth_error (list_texts numbered 1 items) k
      = Some ("[cyan]"
                ++ (if numbered then PyStr.of_Z (Z.of_nat k + 1) ++ ". " else "• ")
                ++ "[/cyan][white]" ++ item ++ "[/white]").
Proof.
  split; [apply list_body|]. split; [apply list_texts_length|].
  intros k item Hk. rewrite (list_texts_nth numbered items 1 k item Hk).
  unfold list_text. now rewrite (Z.add_comm 1).
Qed.

Lemma list_panel_numbering_witness :
  nth_error (list_texts true 1 ["a"; "b"; "c"]) 2
  = Some "[cyan]3. [/cyan][white]c[/white]".
Proof.
  apply (proj2 (proj2 (list_panel_numbering ["a"; "b"; "c"] "Items" true fresh)) 2%nat "c").
  reflexivity.
Defined.

(* ===================================================================== *)
(** ** Table rows *)
(* ===================================================================== *)

Section TableFacts.

Lemma get_missing (row : dict) (key : string) (default : pyval) :
  ~ In key (PyData.keys row) -> PyData.get row key default = default.
Proof.
  induction row as [|[k v] row IH]; intros Hnot; simpl; [reflexivity|].
  destruct (String.eqb_spec k key) as [->|Hne].
  - exfalso. apply Hnot. now left.
  - apply IH. intros Hin. apply Hnot. now right.
Qed.

Lemma get_set_other (row : dict) (key other : string) (value default : pyval) :
  key <> other ->
  PyData.get (PyData.set row key value) other default = PyData.get row other default.
Proof.
  intros Hne. induction row as [|[k v] row IH]; simpl.
  - destruct (String.eqb_spec key other); [contradiction | reflexivity].
  - destruct (String.eqb_spec k key) as [->|Hk]; simpl.
    + destruct (String.eqb_spec key other); [contradiction | reflexivity].
    + destruct (String.eqb_spec k other); [reflexivity | apply IH].
Qed.


(** The table a call of [rprint_table] writes when there is a first row. *)
Lemma rprint_table_writes (first_row : dict) (others : list dict) (title : string)
      (max_rows : Z) (w : world) :
  Rprint.rprint_table (first_row :: others) title max_rows w
  = Returned tt
      (write (RTable
                (mkTable ("[bold blue]" ++ title ++ "[/bold blue]")
                         (map Rprint.column_header (PyData.keys first_row))
                         (map (Rprint.row_values first_row)
                              (PyData.slice_to max_rows (first_row :: others)))
                         (if (max_rows <? PyData.len (first_row :: others))%Z
                          then Some ("Showing " ++ PyStr.of_Z max_rows ++ " of "
                                       ++ PyStr.of_Z (PyData.len (first_row :: others))
                                       ++ " rows")
                          else None))) w).
Proof. reflexivity. Qed.

End TableFacts.


(** X4.  A row that lacks a key of the first row shows an empty cell in that
    column. *)
Theorem table_missing_key_blank (first_row row : dict) (i : nat) (key : string) :
  nth_error (PyData.keys first_row) i = Some key ->
  ~ In key (PyData.keys row) ->
  nth_error (Rprint.row_values first_row row) i = Some "".
Proof.
  intros Hkey Hnot. unfold Rprint.row_values.
  rewrite nth_error_map, Hkey. cbn [option_map].
  now rewrite get_missing.
Qed.

(** X5.  A key that the first row does not have is never shown: setting it in
    a row leaves the cells of that row as they were. *)
Theorem table_foreign_key_ignored (first_row row : dict) (key : string) (value : pyval) :
  ~ In key (PyData.keys first_row) ->
  Rprint.row_values first_row (PyData.set row key value)
  = Rprint.row_values first_row row.
Proof.
  intros Hnot. unfold Rprint.row_values.
  apply map_ext_in. intros column Hin.
  rewrite get_set_other; [reflexivity|].
  intros ->. contradiction.
Qed.

Lemma table_missing_key_blank_witness :
  nth_error (Rprint.row_values [("name", PStr "Elena"); ("score", PInt 3)]
                               [("name", PStr "Marcus")]) 1
  = Some "".
Proof.
  apply (table_missing_key_blank [("name", PStr "Elena"); ("score", PInt 3)]
                                 [("name", PStr "Marcus")] 1 "score").
  - reflexivity.
  - intros [H|[]]. discriminate.
Defined.

Lemma table_foreign_key_ignored_witness :
  Rprint.row_values [("name", PStr "Elena")]
                    (PyData.set [("name", PStr "Marcus")] "age" (PInt 30))
  = Rprint.row_values [("name", PStr "Elena")] [("name", PStr "Marcus")].
Proof.
  apply (table_foreign_key_ignored [("name", PStr "Elena")] [("name", PStr "Marcus")]
                                   "age" (PInt 30)).
  intros [H|[]]. discriminate.
Defined.

(* ===================================================================== *)
(** ** Dispatch, case by case *)
(* ===================================================================== *)

Section DispatchFacts.

Variable json_loads : string -> exn + pyval.

(** X6.  Every call of [rprint_display_any] either returns having written
    exactly one renderable, or raises with the console as it was. *)
Theorem display_any_one_write (data : pyval) (title : string) (w : world) :
  (exists r, Rprint.rprint_display_any json_loads data title w = Returned tt (write r w))
  \/ (exists e, Rprint.rprint_display_any json_loads data title w = Raised e w).
Proof.
  assert (Hpanel : forall v,
             (exists r, Rprint.json_panel v title w = Returned tt (write r w))
             \/ (exists e, Rprint.json_panel v title w = Raised e w)).
  { intros v. destruct (PyData.serializable v) eqn:Hs.
    - left. eexists. now apply json_panel_serializable.
    - right. eexists. now apply json_panel_unserializable. }
  assert (Hinfo : forall text,
             exists r, Rprint.rprint_info text w = Returned tt (write r w))
    by (intros; eexists; reflexivity).
  destruct data as [|b|n|r|s|items|m|st rp]; unfold Rprint.rprint_display_any;
    try (left; apply Hinfo).
  - destruct (PyStr.startswith (PyStr.strip s) "{"); [|left; apply Hinfo].
    unfold Rprint.rprint_json.
    destruct (json_loads s) as [e|decoded]; [|apply Hpanel].
    destruct e; try (right; eexists; reflexivity).
    left. eexists. reflexivity.
  - destruct (forallb PyData.is_dict items).
    + left. destruct (Rprint.as_dicts items) as [|first_row others].
      * eexists. reflexivity.
      * eexists. apply rprint_table_writes.
    + left. eexists. apply list_body.
  - destruct (PyData.len m <? 10)%Z.
    + left. eexists. apply key_value_body.
    + apply Hpanel.
Qed.



(** X9.  Rendering a JSON text is rendering what it decodes to: when the
    text decodes to a value that is not itself a string, [rprint_json] on
    the text and on the value do the same. *)
Theorem rprint_json_of_text (s : string) (decoded : pyval) (title : string) :
  json_loads s = inr decoded ->
  (forall text, decoded <> PStr text) ->
  Rprint.rprint_json json_loads (PStr s) title
  = Rprint.rprint_json json_loads decoded title.
Proof.
  intros Hd Hnot. unfold Rprint.rprint_json. rewrite Hd.
  destruct decoded; try reflexivity. now destruct (Hnot s0).
Qed.


(** X11.  A string that starts with an opening brace, white space apart, and
    on which the decoder fails: when the decoder raises [JSONDecodeError],
    [rprint_display_any] writes the one red notice and returns, showing
    neither the title nor the text; any other exception of the decoder
    reaches the caller, with nothing written. *)
Theorem display_any_malformed (s : string) (title : string) (w : world) (e : exn) :
  PyStr.startswith (PyStr.strip s) "{" = true ->
  json_loads s = inl e ->
  Rprint.rprint_display_any json_loads (PStr s) title w
  = match e with
    | JSONDecodeError => Returned tt (write (Markup "[red]Invalid JSON string[/red]") w)
    | _ => Raised e w
    end.
Proof.
  intros Hb Hd. unfold Rprint.rprint_display_any. rewrite Hb.
  unfold Rprint.rprint_json. rewrite Hd. now destruct e.
Qed.

End DispatchFacts.



Lemma rprint_json_of_text_witness :
  Rprint.rprint_json Json.loads (PStr "[1, 2]") "Data"
  = Rprint.rprint_json Json.loads (PList [PInt 1; PInt 2]) "Data".
Proof.
  apply (rprint_json_of_text Json.loads "[1, 2]" (PList [PInt 1; PInt 2]) "Data").
  - reflexivity.
  - discriminate.
Defined.


Lemma display_any_malformed_witness :
  Rprint.rprint_display_any Json.loads (PStr "{not json") "Data" fresh
  = Returned tt (write (Markup "[red]Invalid JSON string[/red]") fresh).
Proof.
  apply (display_any_malformed Json.loads "{not json" "Data" fresh JSONDecodeError);
    reflexivity.
Defined.

(* ===================================================================== *)
(** ** Headers *)
(* ===================================================================== *)

Section HeaderFacts.

Lemma replace_underscore_length (s : string) :
  String.length (PyStr.replace_underscore s) = String.length s.
Proof. induction s as [|c s IH]; simpl; [reflexivity | now rewrite IH]. Qed.

Lemma title_from_length (s : string) :
  forall cased, String.length (PyStr.title_from cased s) = String.length s.
Proof. induction s as [|c s IH]; intros cased; simpl; [reflexivity | now rewrite IH]. Qed.

Lemma replace_char_clean (c : ascii) :
  Ascii.eqb "_" (if Ascii.eqb c "_" then " "%char else c) = false.
Proof. destruct c as [[] [] [] [] [] [] [] []]; reflexivity. Qed.

Lemma replace_underscore_clean (s : string) :
  PyStr.contains_char "_" (PyStr.replace_underscore s) = false.
Proof.
  unfold PyStr.contains_char.
  induction s as [|c s IH]; [reflexivity|].
  cbn [PyStr.replace_underscore list_ascii_of_string existsb].
  now rewrite IH, replace_char_clean.
Qed.

(** Changing the case of a character never makes an underscore. *)
Lemma title_char_clean (c : ascii) (previous : bool) :
  Ascii.eqb "_" c = false ->
  Ascii.eqb "_"
    (if PyStr.is_lower c || PyStr.is_upper c
     then (if previous then PyStr.to_lower c else PyStr.to_upper c) else c) = false.
Proof.
  destruct c as [[] [] [] [] [] [] [] []], previous; vm_compute; auto.
Qed.

Lemma title_from_clean (s : string) :
  forall cased,
    PyStr.contains_char "_" s = false ->
    PyStr.contains_char "_" (PyStr.title_from cased s) = false.
Proof.
  unfold PyStr.contains_char.
  induction s as [|c s IH]; intros cased H; [reflexivity|].
  cbn [PyStr.title_from list_ascii_of_string existsb] in *.
  apply orb_false_iff in H as [Hc Hs].
  rewrite IH by assumption. rewrite orb_false_r.
  now apply title_char_clean.
Qed.

Lemma replace_char_ascii (c : ascii) :
  (nat_of_ascii c <? 128)%nat = true ->
  (nat_of_ascii (if Ascii.eqb c "_" then " "%char else c) <? 128)%nat = true.
Proof. destruct (Ascii.eqb c "_"); [reflexivity | trivial]. Qed.

Lemma replace_underscore_ascii (s : string) :
  PyStr.isascii s = true -> PyStr.isascii (PyStr.replace_underscore s) = true.
Proof.
  unfold PyStr.isascii.
  induction s as [|c s IH]; [reflexivity|].
  cbn [PyStr.replace_underscore list_ascii_of_string forallb].
  intros H. apply andb_true_iff in H as [Hc Hs].
  rewrite IH by assumption. rewrite andb_true_r. now apply replace_char_ascii.
Qed.

(** Changing the case of an ASCII character gives an ASCII character. *)
Lemma title_char_ascii (c : ascii) (previous : bool) :
  (nat_of_ascii c <? 128)%nat = true ->
  (nat_of_ascii
     (if PyStr.is_lower c || PyStr.is_upper c
      then (if previous then PyStr.to_lower c else PyStr.to_upper c) else c) <? 128)%nat
  = true.
Proof.
  destruct c as [[] [] [] [] [] [] [] []], previous; vm_compute; auto.
Qed.

Lemma title_from_ascii (s : string) :
  forall cased,
    PyStr.isascii s = true -> PyStr.isascii (PyStr.title_from cased s) = true.
Proof.
  unfold PyStr.isascii.
  induction s as [|c s IH]; intros cased H; [reflexivity|].
  cbn [PyStr.title_from list_ascii_of_string forallb] in *.
  apply andb_true_iff in H as [Hc Hs].
  rewrite IH by assumption. rewrite andb_true_r.
  now apply title_char_ascii.
Qed.

End HeaderFacts.

(** X12.  For a key of ASCII characters, the column header, which is also
    how the key is shown in a key/value panel, has as many characters as the
    key, all of them ASCII, and no underscore. *)
Theorem column_header_shape (key : string) :
  PyStr.isascii key = true ->
  String.length (Rprint.column_header key) = String.length key
  /\ PyStr.contains_char "_" (Rprint.column_header key) = false
  /\ PyStr.isascii (Rprint.column_header key) = true.
Proof.
  intros Hascii. unfold Rprint.column_header, PyStr.title. split; [|split].
  - now rewrite title_from_length, replace_underscore_length.
  - apply title_from_clean, replace_underscore_clean.
  - apply title_from_ascii, replace_underscore_ascii, Hascii.
Qed.

Lemma column_header_shape_witness :
  String.length (Rprint.column_header "first_name") = String.length "first_name"
  /\ PyStr.contains_char "_" (Rprint.column_header "first_name") = false
  /\ PyStr.isascii (Rprint.column_header "first_name") = true.
Proof.
  apply (column_header_shape "first_name"). reflexivity.
Defined.

(* ===================================================================== *)
(** ** Trees and columns *)
(* ===================================================================== *)

Section LayoutFacts.


Lemma list_repeat_length {A : Type} (l : list A) (n : nat) :
  List.length (Layout.list_repeat l n) = (n * List.length l)%nat.
Proof.
  induction n as [|n IH]; simpl; [reflexivity|]. rewrite length_app, IH. lia.
Qed.

(** The items of [l * n] repeat those of [l]. *)
Lemma list_repeat_nth_error {A : Type} (l : list A) (n k : nat) :
  (k < n * List.length l)%nat ->
  nth_error (Layout.list_repeat l n) k = nth_error l (k mod List.length l).
Proof.
  revert k. induction n as [|n IH]; intros k Hk; [lia|].
  assert (Hl : (0 < List.length l)%nat) by (destruct l; simpl in *; lia).
  simpl. destruct (Nat.lt_ge_cases k (List.length l)) as [Hlt|Hge].
  - rewrite nth_error_app1 by assumption. now rewrite Nat.mod_small.
  - rewrite nth_error_app2 by assumption. rewrite IH by (simpl in Hk; lia).
    f_equal.
    replace k with ((k - List.length l) + 1 * List.length l)%nat at 2 by lia.
    now rewrite Nat.Div0.mod_add.
Qed.

(** The loop of [rprint_multi_column] when no index is out of range. *)
Lemma column_panels_ok (titles colors : list string) (contents : list string) :
  colors <> [] ->
  forall i panels shown,
    (i + List.length contents <= List.length titles)%nat ->
    Layout.column_panels i contents titles colors panels shown
    = (inr (panels
              ++ map (fun entry =>
                        let color := nth (fst entry mod List.length colors) colors "" in
                        RPanel (BodyMarkup (snd entry))
                               ("[bold " ++ color ++ "]" ++ nth (fst entry) titles ""
                                  ++ "[/bold " ++ color ++ "]")
                               color)
                     (combine (seq i (List.length contents)) contents))%list,
       shown).
Proof.
  intros Hcolors.
  assert (Hlen : (0 < List.length colors)%nat) by (destruct colors; simpl; [congruence | lia]).
  induction contents as [|content contents IH]; intros i panels shown Hi.
  - simpl. now rewrite app_nil_r.
  - cbn [Layout.column_panels List.length seq combine map fst snd].
    destruct (Nat.eqb_spec (List.length colors) 0) as [E|_]; [lia|].
    unfold Layout.wbind, Layout.index.
    assert (Hc : (i mod List.length colors < List.length colors)%nat)
      by (apply Nat.mod_upper_bound; lia).
    rewrite (nth_error_nth' colors "" Hc).
    assert (Ht : (i < List.length titles)%nat) by (simpl in Hi; lia).
    rewrite (nth_error_nth' titles "" Ht).
    cbn [Layout.wret].
    rewrite IH by (simpl in Hi; lia).
    now rewrite <- app_assoc.
Qed.

(** The loop stops with [IndexError] at the first content without a title. *)
Lemma column_panels_short (titles colors : list string) (contents : list string) :
  colors <> [] ->
  forall i panels shown,
    (i <= List.length titles < i + List.length contents)%nat ->
    Layout.column_panels i contents titles colors panels shown
    = (inl Layout.IndexError, shown).
Proof.
  intros Hcolors.
  assert (Hlen : (0 < List.length colors)%nat) by (destruct colors; simpl; [congruence | lia]).
  induction contents as [|content contents IH]; intros i panels shown Hi.
  - simpl in Hi. lia.
  - cbn [Layout.column_panels].
    destruct (Nat.eqb_spec (List.length colors) 0) as [E|_]; [lia|].
    unfold Layout.wbind, Layout.index.
    assert (Hc : (i mod List.length colors < List.length colors)%nat)
      by (apply Nat.mod_upper_bound; lia).
    rewrite (nth_error_nth' colors "" Hc). cbn [Layout.wret].
    destruct (Nat.lt_ge_cases i (List.length titles)) as [Ht|Ht].
    + rewrite (nth_error_nth' titles "" Ht). cbn [Layout.wret].
      apply IH. simpl in Hi. lia.
    + apply nth_error_None in Ht. rewrite Ht. reflexivity.
Qed.

End LayoutFacts.

(** X14.  When titles are given and there are fewer of them than contents,
    [rprint_multi_column] raises [IndexError] and writes nothing, whatever
    the colors. *)
Theorem multi_column_short_titles (contents : list string) (first_title : string)
        (more_titles : list string) (colors : option (list string))
        (shown : list Layout.widget) :
  (List.length (first_title :: more_titles) < List.length contents)%nat ->
  Layout.rprint_multi_column contents (Some (first_title :: more_titles)) colors shown
  = (inl Layout.IndexError, shown).
Proof.
  intros Hshort. unfold Layout.rprint_multi_column, Layout.wbind.
  cbn [Layout.or_default].
  rewrite column_panels_short; [reflexivity | | lia].
  destruct colors as [[|c cs]|]; cbn [Layout.or_default]; try discriminate;
    rewrite Nat.add_comm; discriminate.
Qed.

(** X15.  Called with contents alone, [rprint_multi_column] writes one row of
    panels, one per content and in order; the panel at index [k] is titled
    [Column k+1] and takes the color at index [k mod 5] of blue, green,
    yellow, cyan, magenta. *)
Theorem multi_column_defaults (contents : list string) (shown : list Layout.widget) :
  Layout.rprint_multi_column contents None None shown
  = (inr tt,
     (shown
        ++ [Layout.Columns
              (map (fun entry =>
                      let color :=
                        nth (fst entry mod 5) ["blue"; "green"; "yellow"; "cyan"; "magenta"]
                            "" in
                      RPanel (BodyMarkup (snd entry))
                             ("[bold " ++ color ++ "]Column "
                                ++ PyStr.of_Z (Z.of_nat (fst entry) + 1)
                                ++ "[/bold " ++ color ++ "]")
                             color)
                   (combine (seq 0 (List.length contents)) contents))
              true])%list).
Proof.
  unfold Layout.rprint_multi_column, Layout.wbind. cbn [Layout.or_default].
  set (base := ["blue"; "green"; "yellow"; "cyan"; "magenta"]).
  set (n := List.length contents).
  set (colors := Layout.list_repeat base (n / 5 + 1)).
  set (titles := map (fun i => "Column " ++ PyStr.of_Z (Z.of_nat i + 1)) (seq 0 n)).
  assert (Hcl : List.length colors = ((n / 5 + 1) * 5)%nat)
    by (unfold colors; now rewrite list_repeat_length).
  assert (Hn : (n < List.length colors)%nat).
  { rewrite Hcl. pose proof (Nat.div_mod_eq n 5).
    pose proof (Nat.mod_upper_bound n 5). lia. }
  rewrite column_panels_ok.
  - unfold Layout.wprint. cbn [app]. do 4 f_equal.
    apply map_ext_in. intros [k content] Hin. cbn [fst snd].
    apply in_combine_l in Hin. apply in_seq in Hin.
    assert (Hk : (k < List.length colors)%nat) by (fold n in Hin; lia).
    assert (Hcolor : nth (k mod List.length colors) colors "" = nth (k mod 5) base "").
    { rewrite Nat.mod_small by assumption.
      apply nth_error_nth.
      unfold colors.
      rewrite list_repeat_nth_error
        by (change (List.length base) with 5%nat; rewrite <- Hcl; exact Hk).
      change (List.length base) with 5%nat.
      apply nth_error_nth'. change (List.length base) with 5%nat.
      apply Nat.mod_upper_bound. discriminate. }
    assert (Htitle : nth k titles "" = "Column " ++ PyStr.of_Z (Z.of_nat k + 1)).
    { apply nth_error_nth. unfold titles. rewrite nth_error_map.
      rewrite (nth_error_nth' (seq 0 n) 0%nat) by (rewrite length_seq; fold n in Hin; lia).
      rewrite seq_nth by (fold n in Hin; lia). reflexivity. }
    rewrite Hcolor, Htitle. cbn zeta. rewrite ?append_assoc. reflexivity.
  - intros E. rewrite E in Hn. simpl in Hn. lia.
  - unfold titles. rewrite length_map, length_seq. fold n. lia.
Qed.

Lemma multi_column_short_titles_witness :
  Layout.rprint_multi_column ["a"; "b"; "c"] (Some ["Left"; "Right"]) None []
  = (inl Layout.IndexError, []).
Proof.
  apply (multi_column_short_titles ["a"; "b"; "c"] "Left" ["Right"] None []).
  simpl. lia.
Defined.

(** X16.  With at least as many titles as contents and colors of the
    caller's, [rprint_multi_column] writes one row of panels, one per content
    and in order; the panel at index [k] has the title at index [k] and the
    color at index [k mod len(colors)]: the colors are reused in a cycle and
    titles beyond the contents are left out. *)
Theorem multi_column_cycles (contents : list string) (first_title : string)
        (more_titles : list string) (first_color : string) (more_colors : list string)
        (shown : list Layout.widget) :
  (List.length contents <= List.length (first_title :: more_titles))%nat ->
  Layout.rprint_multi_column contents (Some (first_title :: more_titles))
                             (Some (first_color :: more_colors)) shown
  = (inr tt,
     (shown
        ++ [Layout.Columns
              (map (fun entry =>
                      let color :=
                        nth (fst entry mod List.length (first_color :: more_colors))
                            (first_color :: more_colors) "" in
                      RPanel (BodyMarkup (snd entry))
                             ("[bold " ++ color ++ "]"
                                ++ nth (fst entry) (first_title :: more_titles) ""
                                ++ "[/bold " ++ color ++ "]")
                             color)
                   (combine (seq 0 (List.length contents)) contents))
              true])%list).
Proof.
  intros Hlen. unfold Layout.rprint_multi_column, Layout.wbind.
  cbn [Layout.or_default].
  rewrite column_panels_ok; [reflexivity | discriminate | exact Hlen].
Qed.

Lemma multi_column_cycles_witness :
  Layout.rprint_multi_column ["a"; "b"; "c"] (Some ["One"; "Two"; "Three"; "Four"])
                             (Some ["red"; "white"]) []
  = (inr tt,
     [Layout.Columns
        [RPanel (BodyMarkup "a") "[bold red]One[/bold red]" "red";
         RPanel (BodyMarkup "b") "[bold white]Two[/bold white]" "white";
         RPanel (BodyMarkup "c") "[bold red]Three[/bold red]" "red"] true]).
Proof.
  apply (multi_column_cycles ["a"; "b"; "c"] "One" ["Two"; "Three"; "Four"]
                             "red" ["white"] []).
  simpl. lia.
Defined.

(** X17.  [rprint_side_by_side] is [rprint_multi_column] on the two contents
    with the two titles and the colors blue and green: both write the same
    row of two panels. *)
Theorem side_by_side_is_two_columns (left_content right_content left_title right_title : string)
        (shown : list Layout.widget) :
  Layout.rprint_side_by_side left_content right_content left_title right_title shown
  = Layout.rprint_multi_column [left_content; right_content]
                               (Some [left_title; right_title])
                               (Some ["blue"; "green"]) shown
  /\ Layout.rprint_diff left_content right_content shown
     = Layout.rprint_multi_column [left_content; right_content]
                                  (Some ["Before"; "After"])
                                  (Some ["blue"; "green"]) shown.
Proof.
  unfold Layout.rprint_diff.
  split;
    (unfold Layout.rprint_multi_column, Layout.wbind; cbn [Layout.or_default];
     rewrite column_panels_ok; [reflexivity | discriminate | simpl; lia]).
Qed.




(* ===================================================================== *)
(** ** Status lines *)
(* ===================================================================== *)

Section StatusFacts.

Lemma artifact_lines_writes (artifacts : list (string * string)) :
  forall w,
    Status.artifact_lines artifacts w
    = Returned tt
        (mkWorld (stdout w ++ map (fun item => Markup (Status.artifact_line item)) artifacts)
                 (stdin w)).
Proof.
  induction artifacts as [|item artifacts IH]; intros [out lines].
  - cbn. now rewrite app_nil_r.
  - cbn [Status.artifact_lines map]. unfold bind, rprint. rewrite IH.
    unfold write. cbn [stdout stdin]. now rewrite <- app_assoc.
Qed.

End StatusFacts.

(** X18.  [rprint_artifact_list] writes a header that states the number of
    artifacts, a rule of 60 dashes, and then one line per artifact, in the
    order of the dict: two lines more than there are artifacts, and it reads
    no input. *)
Theorem artifact_list_lines (artifacts : list (string * string)) (w : world) :
  exists header,
    Status.rprint_artifact_list artifacts w
    = Returned tt
        (mkWorld (stdout w
                    ++ [Markup header; Markup ("[dim]" ++ PyStr.repeat "-" 60 ++ "[/dim]")]
                    ++ map (fun item => Markup (Status.artifact_line item)) artifacts)
                 (stdin w))
    /\ header = Rprint.newline ++ "[bold yellow]Generated Artifacts ("
                  ++ PyStr.of_Z (PyData.len artifacts) ++ " files):[/bold yellow]"
    /\ List.length ([Markup header; Markup ("[dim]" ++ PyStr.repeat "-" 60 ++ "[/dim]")]
                      ++ map (fun item => Markup (Status.artifact_line item)) artifacts)
       = (List.length artifacts + 2)%nat.
Proof.
  eexists. split; [|split; [reflexivity|]].
  - unfold Status.rprint_artifact_list, Status.rprint_thin_divider, bind, rprint.
    rewrite artifact_lines_writes. unfold write. cbn [stdout stdin].
    now rewrite <- !app_assoc.
  - cbn [List.length app]. rewrite length_map. lia.
Qed.

(** X19.  A status that is none of processing, complete, failed, skipped and
    warning makes [rprint_process_step] write the step in blue: the lookup
    falls back to a default and never raises. *)
Theorem process_step_default (step_name status : string) (w : world) :
  ~ In status ["processing"; "complete"; "failed"; "skipped"; "warning"] ->
  Status.rprint_process_step step_name status w
  = Returned tt (write (Markup ("[blue]" ++ step_name ++ "[/blue]")) w).
Proof.
  intros Hnot. unfold Status.rprint_process_step.
  assert (Hnone : Rprint.lookup Status.status_colors status = None).
  { unfold Status.status_colors. cbn [Rprint.lookup].
    repeat match goal with
           | |- context [String.eqb ?k status] =>
               destruct (String.eqb_spec k status) as [E|_];
               [exfalso; apply Hnot; rewrite <- E; simpl; tauto|]
           end.
    reflexivity. }
  now rewrite Hnone.
Qed.

Lemma process_step_default_witness :
  Status.rprint_process_step "Load" "queued" fresh
  = Returned tt (write (Markup ("[blue]" ++ "Load" ++ "[/blue]")) fresh).
Proof.
  apply (process_step_default "Load" "queued" fresh).
  intros [H|[H|[H|[H|[H|[]]]]]]; discriminate.
Defined.

(* ===================================================================== *)
(** ** The countdown *)
(* ===================================================================== *)

Section TimerFacts.





End TimerFacts.


(* ===================================================================== *)
(** ** The progress bar between nothing and everything *)
(* ===================================================================== *)

Module FloatExact.

Import PyFloat FloatBound FloatFacts FloatValue.
Local Open Scope Z_scope.

































End FloatExact.

(* ===================================================================== *)
(** ** The progress bar *)
(* ===================================================================== *)


(** A quotient well inside the range of a float still fails when the bar
    would need more cells than an index can count: with [total = 1] and
    [current = 10^20] the count is [2 * 10^21]. *)
Example progress_bar_index_overflow :
  Rprint.rprint_progress_bar (10 ^ 20) 1 "Load" fresh = Raised OverflowError fresh.
Proof. vm_compute. reflexivity. Qed.

(** A quotient inside the range of a float whose hundredfold is not: the
    percentage is infinite, its floor quotient is NaN and [int] raises
    [ValueError]. *)
Example progress_bar_nan :
  Rprint.rprint_progress_bar (10 ^ 307) 1 "Load" fresh = Raised ValueError fresh.
Proof. vm_compute. reflexivity. Qed.



